(** * nftopia analytics views: a shallow embedding of [analytics/views.py]

    The views of the analytics application are embedded as functions in a
    state-and-exception monad over the persisted record store.  The Django
    and Django REST framework decorators that wrap each view are embedded
    as higher-order functions on views, in the order the source applies
    them.  [analytics/utils.py] and [analytics/models.py] are not among the
    sources: what the views need from them is either a parameter of the
    development or a definition modelled from the specification, marked as
    such. *)

From Stdlib Require Import ZArith QArith Lia Ascii String.
From stdpp Require Import gmap strings list sorting fin_maps.

Local Open Scope string_scope.
Local Open Scope list_scope.
Local Open Scope Z_scope.

(** ** Exceptions and results *)

(** A Python exception: its class name, the text [str(e)] yields, and,
    for the subclasses of the REST framework's [APIException], the
    [status_code] attribute the framework answers with ([None] for every
    other exception). *)
Record Exception := {
  exc_class : string;
  exc_text : string;
  api_status : option Z;
}.

Definition str (e : Exception) : string := exc_text e.

Inductive result (A : Type) : Type :=
| Ok (a : A)
| Raise (e : Exception).
Arguments Ok {A} a.
Arguments Raise {A} e.

(** ** Data model (the fields the views read and write) *)

(** Timestamps are seconds since the epoch. *)
Definition Timestamp := Z.

(** [request.user]: Django's [AnonymousUser] has [is_authenticated] and
    [is_staff] both false. *)
Record User := {
  pk : nat;
  is_authenticated : bool;
  is_staff : bool;
}.

Record WalletConnection := {
  wc_id : nat;
  wc_user : nat;
  wallet_provider : string;
  wallet_address : string;
  connection_status : string;
  error_message : string;
  ip_address : string;
  user_agent : string;
  attempted_at : Timestamp;
}.

Record UserSession := {
  us_user : nat;
  login_at : Timestamp;
}.

Record PageView := {
  pv_user : option nat;
  path : string;
  timestamp : Timestamp;
}.

(** Modelled from the spec: [UserBehaviorMetrics] (models.py, not among
    the sources) is the one-per-user rolling summary that [update_metrics]
    mutates.  The summary's content is abstracted to the number of times
    [update_metrics] has run on the row. *)
Record UserBehaviorMetrics := { update_count : nat }.

(** A [RetentionCohort] row, with the fields [retention_analysis] reads.
    [cohort_date] is a day number; [retention_rate] is kept as an exact
    rational. *)
Record RetentionCohort := {
  cohort_date : Z;
  period_type : string;
  period_number : nat;
  total_users : nat;
  retained_users : nat;
  retention_rate : Q;
}.

(** The persisted record store: one table per model.  The reverse
    one-to-one accessor [user.behavior_metrics] is the lookup of the user's
    primary key in [behavior_metrics]. *)
Record Store := {
  wallet_connections : list WalletConnection;
  behavior_metrics : gmap nat UserBehaviorMetrics;
  retention_cohorts : list RetentionCohort;
  user_sessions : list UserSession;
  page_views : list PageView;
}.

(** The calls a view makes into [analytics/utils.py]. *)
Inductive UtilsCall :=
| Call_calculate_retention_cohorts (period_type : string)
| Call_get_session_analytics (days : Z)
| Call_get_wallet_analytics
| Call_get_user_segmentation.

(** What a request runs against: the store, the clock [timezone.now()]
    reads, and the log of calls made into utils.py so far. *)
Record World := {
  store : Store;
  clock : Timestamp;
  utils_calls : list UtilsCall;
}.

Definition with_store (w : World) (s : Store) : World :=
  {| store := s; clock := clock w; utils_calls := utils_calls w |}.

Definition with_call (w : World) (c : UtilsCall) : World :=
  {| store := store w; clock := clock w; utils_calls := utils_calls w ++ [c] |}.

(** ** The monad of a view: state that survives a raised exception *)

Definition M (A : Type) : Type := World → result A * World.

Definition ret {A} (a : A) : M A := λ w, (Ok a, w).

Definition bind {A B} (c : M A) (k : A → M B) : M B :=
  λ w, match c w with
       | (Ok a, w') => k a w'
       | (Raise e, w') => (Raise e, w')
       end.

Definition raise {A} (e : Exception) : M A := λ w, (Raise e, w).

(** [try: body except Exception as e: handler e]. *)
Definition try_except {A} (body : M A) (handler : Exception → M A) : M A :=
  λ w, match body w with
       | (Ok a, w') => (Ok a, w')
       | (Raise e, w') => handler e w'
       end.

Definition lift_result {A} (r : result A) : M A :=
  match r with Ok a => ret a | Raise e => raise e end.

Global Instance M_ret : MRet M := @ret.
Global Instance M_bind : MBind M := λ A B k c, bind c k.

(** ** Requests and responses *)

(** [dict.get(key, default)] and [QueryDict.get(key, default)]. *)
Definition dict_get (d : gmap string string) (key default : string) : string :=
  match d !! key with
  | Some v => v
  | None => default
  end.

(** The request as a view sees it.  [user] and [auth_failure] are what
    the framework's authenticators made of the credentials: the user they
    resolved (the anonymous user when nothing was presented), or the detail
    of the error they raised on credentials they rejected, [None] otherwise.
    [data] is parsed lazily by the framework on first access and raises
    inside the view when the body is malformed. *)
Record Request := {
  method : string;
  user : User;
  auth_failure : option string;
  GET : gmap string string;
  data : result (gmap string string);
  META : gmap string string;
}.

(** The framework sets the anonymous user on a request whose credentials
    an authenticator rejects: a failure goes with an unauthenticated
    user. *)
Definition authentication_error (request : Request) : option string :=
  if is_authenticated (user request) then None else auth_failure request.

Definition HTTP_200_OK : Z := 200.
Definition HTTP_302_FOUND : Z := 302.
Definition HTTP_400_BAD_REQUEST : Z := 400.
Definition HTTP_401_UNAUTHORIZED : Z := 401.
Definition HTTP_403_FORBIDDEN : Z := 403.
Definition HTTP_405_METHOD_NOT_ALLOWED : Z := 405.


(** [settings.LOGIN_URL]; settings.py is not among the sources, this is
    Django's default. *)
Definition LOGIN_URL : string := "/accounts/login/".

(** Rows of the aggregate queries the views build. *)
Record DayRow := {
  day : Z;
  total : nat;
  successful : nat;
  failed : nat;
}.

Record PageRow := {
  pr_path : string;
  view_count : nat;
  unique_users : nat;
}.

Record CohortEntry := {
  ce_period : nat;
  ce_retention_rate : Q;
  ce_retained_users : nat;
  ce_total_users : nat;
}.

(** ** Python and ORM primitives the views use *)

Definition ValueError (text : string) : Exception :=
  {| exc_class := "ValueError"; exc_text := text; api_status := None |}.

Definition OverflowError (text : string) : Exception :=
  {| exc_class := "OverflowError"; exc_text := text; api_status := None |}.

(** [int(s)] on a string: surrounding whitespace is dropped, one sign is
    allowed, and the rest must be decimal digits, where single underscores
    may separate digits.  The model covers ASCII strings; the digits and
    spaces of other scripts, which Python also accepts, are outside it,
    and so is the limit recent Pythons put on the number of digits
    ([int_max_str_digits]). *)
Definition is_ascii (s : string) : Prop :=
  Forall (λ c, (nat_of_ascii c < 128)%nat) (list_ascii_of_string s).

Definition int_max_str_digits : nat := 4300.

Definition is_space (c : ascii) : bool :=
  let n := nat_of_ascii c in
  ((9 <=? n) && (n <=? 13) || (n =? 32))%nat.

Definition is_digit (c : ascii) : bool :=
  let n := nat_of_ascii c in ((48 <=? n) && (n <=? 57))%nat.

Definition digit_value (c : ascii) : Z := Z.of_nat (nat_of_ascii c) - 48.

Fixpoint lstrip (s : list ascii) : list ascii :=
  match s with
  | c :: s' => if is_space c then lstrip s' else s
  | [] => []
  end.

Definition strip (s : list ascii) : list ascii :=
  reverse (lstrip (reverse (lstrip s))).

Fixpoint parse_digits (acc : Z) (after_digit : bool) (s : list ascii) : option Z :=
  match s with
  | [] => if after_digit then Some acc else None
  | c :: s' =>
      if is_digit c then parse_digits (10 * acc + digit_value c) true s'
      else if bool_decide (c = "_"%char) then
        if after_digit then parse_digits acc false s' else None
      else None
  end.

Definition parse_int (s : string) : option Z :=
  match strip (list_ascii_of_string s) with
  | "-"%char :: ds => Z.opp <$> parse_digits 0 false ds
  | "+"%char :: ds => parse_digits 0 false ds
  | ds => parse_digits 0 false ds
  end.

(** The text of the ValueError is the one Python gives for a string whose
    [repr] needs no escaping. *)
Definition int (s : string) : result Z :=
  match parse_int s with
  | Some n => Ok n
  | None => Raise (ValueError ("invalid literal for int() with base 10: '" +:+ s +:+ "'"))
  end.

(** [timedelta(days=n)], in seconds: the day count is bounded. *)
Definition timedelta (days : Z) : result Z :=
  if bool_decide (-999999999 ≤ days ≤ 999999999) then Ok (days * 86400)
  else Raise (OverflowError "days out of range for timedelta").

(** [datetime - timedelta]: the result must lie between the years 1 and
    9999. *)
Definition datetime_min : Timestamp := -62135596800.
Definition datetime_max : Timestamp := 253402300799.

Definition datetime_sub (t : Timestamp) (delta : Z) : result Timestamp :=
  if bool_decide (datetime_min ≤ t - delta ≤ datetime_max) then Ok (t - delta)
  else Raise (OverflowError "date value out of range").

(** SQL [date(attempted_at)]: the calendar day, as a day number. *)
Definition date (t : Timestamp) : Z := t `div` 86400.

(** The aggregate query of [wallet_trends]: rows at or after [start_date]
    are grouped by calendar day; each group counts its rows, those with
    status "success" and those with status "failed"; groups are ordered by
    day. *)
Definition count_row (c : WalletConnection) (g : option (nat * nat * nat))
    : option (nat * nat * nat) :=
  let '(t, s, f) := default (0, 0, 0)%nat g in
  Some (S t,
        if bool_decide (connection_status c = "success") then S s else s,
        if bool_decide (connection_status c = "failed") then S f else f).

Definition group_by_day (rows : list WalletConnection) : gmap Z (nat * nat * nat) :=
  foldr (λ c groups, partial_alter (count_row c) (date (attempted_at c)) groups) ∅ rows.

Definition day_row (g : Z * (nat * nat * nat)) : DayRow :=
  let '(d, (t, s, f)) := g in
  {| day := d; total := t; successful := s; failed := f |}.

Definition day_le (a b : DayRow) : Prop := day a ≤ day b.

Global Instance day_le_dec : RelDecision day_le.
Proof. intros a b. unfold day_le. apply _. Defined.

Definition daily_connections_query (start_date : Timestamp)
    (rows : list WalletConnection) : list DayRow :=
  merge_sort day_le
    (day_row <$> map_to_list
       (group_by_day (filter (λ c, start_date ≤ attempted_at c) rows))).

(** [order_by("-login_at")[:10]] and [order_by("-attempted_at")[:10]]. *)
Definition login_ge (a b : UserSession) : Prop := login_at b ≤ login_at a.
Global Instance login_ge_dec : RelDecision login_ge.
Proof. intros a b. unfold login_ge. apply _. Defined.

Definition attempted_ge (a b : WalletConnection) : Prop :=
  attempted_at b ≤ attempted_at a.
Global Instance attempted_ge_dec : RelDecision attempted_ge.
Proof. intros a b. unfold attempted_ge. apply _. Defined.

(** The top-pages query of [user_behavior]: page views grouped by path,
    counting the views and the distinct non-null users, most viewed
    first. *)
Definition count_view (v : PageView) (g : option (nat * gset nat))
    : option (nat * gset nat) :=
  let '(n, us) := default (0%nat, ∅) g in
  Some (S n, match pv_user v with Some u => {[u]} ∪ us | None => us end).

Definition group_by_path (rows : list PageView) : gmap string (nat * gset nat) :=
  foldr (λ v groups, partial_alter (count_view v) (path v) groups) ∅ rows.

Definition page_row (g : string * (nat * gset nat)) : PageRow :=
  {| pr_path := g.1; view_count := g.2.1; unique_users := size g.2.2 |}.

Definition views_ge (a b : PageRow) : Prop := (view_count b ≤ view_count a)%nat.
Global Instance views_ge_dec : RelDecision views_ge.
Proof. intros a b. unfold views_ge. apply _. Defined.

(** [order_by("user", "timestamp")] on page views with a user. *)
Definition journey_le (a b : PageView) : Prop :=
  match pv_user a, pv_user b with
  | Some u, Some v => (u < v)%nat ∨ (u = v ∧ timestamp a ≤ timestamp b)
  | None, _ => True
  | Some _, None => False
  end.
Global Instance journey_le_dec : RelDecision journey_le.
Proof. intros a b. unfold journey_le. destruct (pv_user a), (pv_user b); apply _. Defined.

(** [order_by("-cohort_date", "period_number")]. *)
Definition cohort_le (a b : RetentionCohort) : Prop :=
  cohort_date b < cohort_date a
  ∨ (cohort_date a = cohort_date b ∧ (period_number a ≤ period_number b)%nat).
Global Instance cohort_le_dec : RelDecision cohort_le.
Proof. intros a b. unfold cohort_le. apply _. Defined.

(** The grouping loop of [retention_analysis].  The dictionary
    [cohort_data] keeps its keys in insertion order; the key
    [strftime("%Y-%m-%d")] of a date is represented by the date. *)
Definition cohort_entry (cohort : RetentionCohort) : CohortEntry :=
  {| ce_period := period_number cohort;
     ce_retention_rate := retention_rate cohort;
     ce_retained_users := retained_users cohort;
     ce_total_users := total_users cohort |}.

Fixpoint append_at (date_key : Z) (e : CohortEntry)
    (cohort_data : list (Z * list CohortEntry)) : list (Z * list CohortEntry) :=
  match cohort_data with
  | [] => []
  | (k, es) :: rest =>
      if bool_decide (k = date_key) then (k, es ++ [e]) :: rest
      else (k, es) :: append_at date_key e rest
  end.

Definition group_cohort (cohort_data : list (Z * list CohortEntry))
    (cohort : RetentionCohort) : list (Z * list CohortEntry) :=
  let date_key := cohort_date cohort in
  let cohort_data :=
    if bool_decide (date_key ∈ cohort_data.*1) then cohort_data
    else cohort_data ++ [(date_key, [])] in
  append_at date_key (cohort_entry cohort) cohort_data.

(** ** What the day-bucketed breakdown is, in the words of the specification

    Connection records attempted at or after [start_date] are grouped by
    calendar day; each day reports how many there are, how many have status
    "success" and how many have status "failed"; days come in order. *)
Definition on_day (d : Z) (c : WalletConnection) : Prop := date (attempted_at c) = d.

Global Instance on_day_dec d c : Decision (on_day d c).
Proof. unfold on_day. apply _. Defined.

Definition in_window (start_date : Timestamp) (d : Z) (c : WalletConnection) : Prop :=
  start_date ≤ attempted_at c ∧ on_day d c.

Global Instance in_window_dec start_date d c : Decision (in_window start_date d c).
Proof. unfold in_window. apply _. Defined.

Definition has_status (st : string) (c : WalletConnection) : Prop :=
  connection_status c = st.

Global Instance has_status_dec st c : Decision (has_status st c).
Proof. unfold has_status. apply _. Defined.

Definition count_in_window (start_date : Timestamp) (d : Z)
    (rows : list WalletConnection) : nat :=
  length (filter (in_window start_date d) rows).

Definition count_status_in_window (st : string) (start_date : Timestamp) (d : Z)
    (rows : list WalletConnection) : nat :=
  length (filter (λ c, in_window start_date d c ∧ has_status st c) rows).

Record is_daily_breakdown (start_date : Timestamp) (rows : list WalletConnection)
    (out : list DayRow) : Prop := {
  breakdown_ordered : StronglySorted (λ a b, day a < day b) out;
  breakdown_days :
    ∀ d, d ∈ day <$> out ↔ ∃ c, c ∈ rows ∧ in_window start_date d c;
  breakdown_counts :
    ∀ r, r ∈ out →
      total r = count_in_window start_date (day r) rows
      ∧ successful r = count_status_in_window "success" start_date (day r) rows
      ∧ failed r = count_status_in_window "failed" start_date (day r) rows;
}.

(** The enumeration of period types the specification names. *)
Definition PERIOD_TYPES : list string := ["daily"; "weekly"; "monthly"].

(** How often [update_metrics] has run for a user. *)
Definition metrics_updates (s : Store) (uid : nat) : nat :=
  match behavior_metrics s !! uid with
  | Some m => update_count m
  | None => 0%nat
  end.

(** Exactly one new connection record, with the given provider and status,
    was persisted between two worlds; and the user's behavior metrics were
    updated exactly once between them. *)
Definition one_record_persisted (provider status : string) (u : User) (w w' : World)
    : Prop :=
  ∃ row, wallet_connections (store w') = wallet_connections (store w) ++ [row]
         ∧ wc_user row = pk u
         ∧ wallet_provider row = provider
         ∧ connection_status row = status.

Definition metrics_updated_once (u : User) (w w' : World) : Prop :=
  metrics_updates (store w') (pk u) = S (metrics_updates (store w) (pk u)).

(** The period types handed to the Cohort Builder, read off the call log. *)
Definition builder_periods (calls : list UtilsCall) : list string :=
  omap (λ c, match c with
             | Call_calculate_retention_cohorts p => Some p
             | _ => None
             end) calls.

(** ** The Cohort Builder *)

Module CohortBuilder.

(** Modelled from the spec: [calculate_retention_cohorts] lives in
    utils.py, which is not among the sources.  The definitions of this
    module follow section 4.1 of the specification: users are partitioned
    by the period of their first session; for every cohort and every
    period number up to the present a row counts the cohort's members and
    those of them with a session in that later period; the rate is their
    quotient, and 0 for an empty cohort; rows are upserted by
    (cohort_date, period_type, period_number).  Periods are the fixed-length
    buckets of the glossary: 1, 7 and 30 days. *)
Inductive PeriodType := Daily | Weekly | Monthly.

Definition period_name (p : PeriodType) : string :=
  match p with
  | Daily => "daily"
  | Weekly => "weekly"
  | Monthly => "monthly"
  end.

Definition period_days (p : PeriodType) : Z :=
  match p with
  | Daily => 1
  | Weekly => 7
  | Monthly => 30
  end.

(** Modelled from the spec: the index of the period that contains a
    timestamp, and the first day of a period. *)
Definition period_of (p : PeriodType) (t : Timestamp) : Z :=
  date t `div` period_days p.

Definition period_start (p : PeriodType) (k : Z) : Z := k * period_days p.

Definition earliest (ks : list Z) : option Z :=
  match ks with
  | [] => None
  | k :: ks' => Some (foldr Z.min k ks')
  end.

(** Modelled from the spec: the period of a user's first recorded
    session, and the cohort of the users whose first session falls in
    period [c]. *)
Definition first_period (p : PeriodType) (sessions : list UserSession) (u : nat)
    : option Z :=
  earliest (period_of p ∘ login_at <$> filter (λ s, us_user s = u) sessions).

Definition cohort_members (p : PeriodType) (sessions : list UserSession) (c : Z)
    : list nat :=
  filter (λ u, first_period p sessions u = Some c) (remove_dups (us_user <$> sessions)).

(** Modelled from the spec: a member is retained in period [k] when one
    of its sessions falls inside that period. *)
Definition active_in (p : PeriodType) (sessions : list UserSession) (k : Z) (u : nat)
    : Prop :=
  Exists (λ s, us_user s = u ∧ period_of p (login_at s) = k) sessions.

Global Instance active_in_dec p sessions k u : Decision (active_in p sessions k u).
Proof. unfold active_in. apply _. Defined.

(** Modelled from the spec: retained_users / total_users, using 0 when
    total_users is 0. *)
Definition rate (retained total : nat) : Q :=
  match total with
  | O => 0%Q
  | S _ => (Z.of_nat retained # Pos.of_nat total)%Q
  end.

(** Modelled from the spec: the row of cohort [c] at period number [n]. *)
Definition cohort_row (p : PeriodType) (sessions : list UserSession) (c : Z) (n : nat)
    : RetentionCohort :=
  let members := cohort_members p sessions c in
  let total := length members in
  let retained := length (filter (active_in p sessions (c + Z.of_nat n)) members) in
  {| cohort_date := period_start p c;
     period_type := period_name p;
     period_number := n;
     total_users := total;
     retained_users := retained;
     retention_rate := rate retained total |}.

(** Modelled from the spec: every cohort from the earliest period with a
    session to the present, with every period number from 0 up to the
    present; a period in which nobody was first seen gives a cohort of zero
    users. *)
Definition cohort_rows (p : PeriodType) (sessions : list UserSession) (now : Timestamp)
    : list RetentionCohort :=
  match earliest (period_of p ∘ login_at <$> sessions) with
  | None => []
  | Some first =>
      let current := period_of p now in
      c ← seqZ first (current - first + 1);
      n ← seq 0 (Z.to_nat (current - c) + 1);
      [cohort_row p sessions c n]
  end.

(** Modelled from the spec: write-or-replace keyed by (cohort_date,
    period_type, period_number). *)
Definition same_key (a b : RetentionCohort) : Prop :=
  cohort_date a = cohort_date b
  ∧ period_type a = period_type b
  ∧ period_number a = period_number b.

Global Instance same_key_dec a b : Decision (same_key a b).
Proof. unfold same_key. apply _. Defined.

Fixpoint upsert (row : RetentionCohort) (table : list RetentionCohort)
    : list RetentionCohort :=
  match table with
  | [] => [row]
  | r :: table' =>
      if decide (same_key r row) then row :: table' else r :: upsert row table'
  end.

(** Modelled from the spec: a run recomputes the rows of one period type
    and upserts each of them. *)
Definition calculate_retention_cohorts (p : PeriodType) (w : World) : Store :=
  let s := store w in
  {| wallet_connections := wallet_connections s;
     behavior_metrics := behavior_metrics s;
     retention_cohorts :=
       foldl (λ table row, upsert row table) (retention_cohorts s)
             (cohort_rows p (user_sessions s) (clock w));
     user_sessions := user_sessions s;
     page_views := page_views s |}.

End CohortBuilder.

Section Views.

Set Default Proof Using "Type".

(** The structured summary an aggregator of utils.py returns. *)
Context {Summary : Type}.

(** Modelled from the spec: the three aggregators of utils.py (not among
    the sources) are pure reads of the store and the clock that do not
    raise. *)
Variable get_session_analytics_impl : Z → World → Summary.
Variable get_wallet_analytics_impl : World → Summary.
Variable get_user_segmentation_impl : World → Summary.

(** Modelled from the spec: the Cohort Builder of utils.py (not among the
    sources) rewrites the store or fails; the views only call it. *)
Variable calculate_retention_cohorts_impl : string → World → result Store.

(** Modelled from the spec: the store may reject a write (constraint,
    connectivity).  Which writes it rejects, and with which exception, is
    the database's decision: [None] means the write goes through. *)
Variable create_fault : World → WalletConnection → option Exception.
Variable update_metrics_fault : World → nat → option Exception.

Inductive Context_ :=
| DashboardContext (session_data wallet_data user_segments : Summary)
    (recent_sessions : list UserSession) (recent_connections : list WalletConnection)
| RetentionContext (period_type : string) (cohort_data : list (Z * list CohortEntry))
| WalletTrendsContext (wallet_data : Summary) (daily_connections : list DayRow) (days : Z)
| UserBehaviorContext (user_segments : Summary) (top_pages : list PageRow)
    (user_journeys : list PageView).

Inductive Body :=
| JsonObject (fields : list (string * string))
| SummaryData (d : Summary)
| Rendered (template : string) (context : Context_)
| RedirectTo (url : string)
| ErrorDetail (detail : string)
| OptionsMetadata.

Record Response_ := { status_code : Z; body : Body }.

(** [Response(data, status=...)], [render(request, template, context)] and
    [redirect_to_login]. *)
Definition Response (fields : list (string * string)) (status : Z) : Response_ :=
  {| status_code := status; body := JsonObject fields |}.

Definition render (template : string) (context : Context_) : Response_ :=
  {| status_code := HTTP_200_OK; body := Rendered template context |}.

Definition redirect_to_login : Response_ :=
  {| status_code := HTTP_302_FOUND; body := RedirectTo LOGIN_URL |}.

(** ** Calls into models.py and utils.py *)

(** Modelled from the spec: the model [WalletConnection] and its manager
    live in models.py, which is not among the sources.
    [WalletConnection.objects.create(...)] gives the row the next primary
    key and the time of the attempt and appends it to the table, unless the
    store rejects the write. *)
Definition next_id (rows : list WalletConnection) : nat :=
  S (foldr Nat.max 0%nat (wc_id <$> rows)).

Definition new_row (u : User) (provider address status error ip ua : string)
    (w : World) : WalletConnection :=
  {| wc_id := next_id (wallet_connections (store w));
     wc_user := pk u;
     wallet_provider := provider;
     wallet_address := address;
     connection_status := status;
     error_message := error;
     ip_address := ip;
     user_agent := ua;
     attempted_at := clock w |}.

Definition insert_connection (row : WalletConnection) (s : Store) : Store :=
  {| wallet_connections := wallet_connections s ++ [row];
     behavior_metrics := behavior_metrics s;
     retention_cohorts := retention_cohorts s;
     user_sessions := user_sessions s;
     page_views := page_views s |}.

Definition objects_create (u : User)
    (provider address status error ip ua : string) : M unit :=
  λ w,
    let row := new_row u provider address status error ip ua w in
    match create_fault w row with
    | Some e => (Raise e, w)
    | None => (Ok tt, with_store w (insert_connection row (store w)))
    end.

(** [hasattr(request.user, "behavior_metrics")]. *)
Definition hasattr_behavior_metrics (u : User) : M bool :=
  λ w, (Ok (bool_decide (is_Some (behavior_metrics (store w) !! pk u))), w).

(** Modelled from the spec: [update_metrics] lives in models.py, which is
    not among the sources.  [request.user.behavior_metrics.update_metrics()]
    mutates the user's summary, unless the store rejects the write. *)
Definition bump_metrics (uid : nat) (s : Store) : Store :=
  {| wallet_connections := wallet_connections s;
     behavior_metrics :=
       alter (λ m, {| update_count := S (update_count m) |}) uid (behavior_metrics s);
     retention_cohorts := retention_cohorts s;
     user_sessions := user_sessions s;
     page_views := page_views s |}.

Definition update_metrics (u : User) : M unit :=
  λ w,
    match update_metrics_fault w (pk u) with
    | Some e => (Raise e, w)
    | None => (Ok tt, with_store w (bump_metrics (pk u) (store w)))
    end.

Definition calculate_retention_cohorts (period_type : string) : M unit :=
  λ w,
    let w1 := with_call w (Call_calculate_retention_cohorts period_type) in
    match calculate_retention_cohorts_impl period_type w with
    | Ok s => (Ok tt, with_store w1 s)
    | Raise e => (Raise e, w1)
    end.

Definition get_session_analytics (days : Z) : M Summary :=
  λ w, (Ok (get_session_analytics_impl days w),
        with_call w (Call_get_session_analytics days)).

Definition get_wallet_analytics : M Summary :=
  λ w, (Ok (get_wallet_analytics_impl w), with_call w Call_get_wallet_analytics).

Definition get_user_segmentation : M Summary :=
  λ w, (Ok (get_user_segmentation_impl w), with_call w Call_get_user_segmentation).

(** [request.data.get(key, default)]: the first access parses the body. *)
Definition data_get (request : Request) (key default : string) : M string :=
  d ← lift_result (data request); mret (dict_get d key default).

(** ** The decorators *)

Inductive Permission := IsAuthenticated | AllowAny.

Definition has_permission (p : Permission) (request : Request) : bool :=
  match p with
  | IsAuthenticated => is_authenticated (user request)
  | AllowAny => true
  end.

(** A view function together with the [permission_classes] attribute a
    decorator may have set on it. *)
Record ViewFunc := {
  call : Request → M Response_;
  permission_classes_attr : option (list Permission);
}.

Definition def (f : Request → M Response_) : ViewFunc :=
  {| call := f; permission_classes_attr := None |}.

(** Django's [user_passes_test]: the view runs when the test passes, and
    otherwise the caller is redirected to the login page (the [next]
    parameter of the redirect is left out). *)
Definition user_passes_test (test_func : User → bool) (view_func : ViewFunc) : ViewFunc :=
  {| call := λ request,
       if test_func (user request) then call view_func request
       else mret redirect_to_login;
     permission_classes_attr := permission_classes_attr view_func |}.

Definition permission_classes (classes : list Permission) (func : ViewFunc) : ViewFunc :=
  {| call := call func; permission_classes_attr := Some classes |}.

(** The setting [DEFAULT_PERMISSION_CLASSES] of the REST framework, used by
    a view that names no permission classes of its own.  settings.py is not
    among the sources: the setting is a parameter. *)
Variable DEFAULT_PERMISSION_CLASSES : list Permission.

(** The framework's answer to one of its own exceptions. *)
Definition api_error (status : Z) (detail : string) : Response_ :=
  {| status_code := status; body := ErrorDetail detail |}.

(** The REST framework's [api_view].  The request is authenticated
    first: credentials that the authenticators reject are answered by the
    framework itself, with the detail of their error.  Then the permission
    classes found on the function (or the default ones) are checked.  Both
    refusals are answered 401, as the docstring of [jwt_staff_required]
    states for the JWT authentication in use.  Then the method is
    dispatched, and an exception of the handler is answered by the
    framework only when it is one of its own [APIException]s. *)
Definition api_view (http_method_names : list string) (func : ViewFunc) : ViewFunc :=
  {| call := λ request,
       match authentication_error request with
       | Some detail => mret (api_error HTTP_401_UNAUTHORIZED detail)
       | None =>
           if forallb (λ p, has_permission p request)
                (default DEFAULT_PERMISSION_CLASSES (permission_classes_attr func))
           then
             if bool_decide (method request ∈ http_method_names) then
               try_except (call func request)
                 (λ e, match api_status e with
                       | Some code => mret (api_error code (str e))
                       | None => raise e
                       end)
             else if bool_decide (method request = "OPTIONS") then
               mret {| status_code := HTTP_200_OK; body := OptionsMetadata |}
             else mret (api_error HTTP_405_METHOD_NOT_ALLOWED "Method not allowed.")
           else
             mret (api_error HTTP_401_UNAUTHORIZED
                     "Authentication credentials were not provided.")
       end;
     permission_classes_attr := None |}.

Definition is_staff_user (u : User) : bool := is_staff u.

Definition jwt_staff_required (view_func : ViewFunc) : ViewFunc :=
  api_view ["GET"]
    (permission_classes [IsAuthenticated]
       (user_passes_test is_staff_user
          (def (λ request, call view_func request)))).

(** The decorator stack that [jwt_staff_required] applies and that the
    three API endpoints spell out: [api_view(["GET"])],
    [permission_classes([IsAuthenticated])],
    [user_passes_test(is_staff_user)]. *)
Definition staff_gate (inner : ViewFunc) : ViewFunc :=
  api_view ["GET"]
    (permission_classes [IsAuthenticated] (user_passes_test is_staff_user inner)).

(** ** The connection-tracking endpoint *)

Definition track_wallet_connection : ViewFunc :=
  api_view ["POST"] (def (λ request,
    try_except
      (if is_authenticated (user request) then
         provider ← data_get request "provider" "other";
         address ← data_get request "address" "";
         status ← data_get request "status" "failed";
         error ← data_get request "error" "";
         objects_create (user request) provider address status error
           (dict_get (META request) "REMOTE_ADDR" "")
           (dict_get (META request) "HTTP_USER_AGENT" "");;
         has ← hasattr_behavior_metrics (user request);
         (if has : bool then update_metrics (user request) else mret tt);;
         mret (Response [("status", "success")] HTTP_200_OK)
       else
         mret (Response [("status", "error"); ("message", "User not authenticated")]
                 HTTP_401_UNAUTHORIZED))
      (λ e, mret (Response [("status", "error"); ("message", str e)]
                    HTTP_400_BAD_REQUEST)))).

(** ** The staff-only read endpoints *)

Definition timezone_now : M Timestamp := λ w, (Ok (clock w), w).

Definition objects {A} (table : Store → list A) : M (list A) :=
  λ w, (Ok (table (store w)), w).

(** [int(request.GET.get("days", 30))]. *)
Definition days_param (request : Request) : M Z :=
  match GET request !! "days" with
  | Some s => lift_result (int s)
  | None => mret 30
  end.

Definition analytics_dashboard : ViewFunc :=
  jwt_staff_required (def (λ request,
    session_data ← get_session_analytics 30;
    wallet_data ← get_wallet_analytics;
    user_segments ← get_user_segmentation;
    sessions ← objects user_sessions;
    connections ← objects wallet_connections;
    let recent_sessions := take 10 (merge_sort login_ge sessions) in
    let recent_connections := take 10 (merge_sort attempted_ge connections) in
    mret (render "analytics/dashboard.html"
            (DashboardContext session_data wallet_data user_segments
               recent_sessions recent_connections)))).

Definition retention_analysis : ViewFunc :=
  jwt_staff_required (def (λ request,
    let period_type_ := dict_get (GET request) "period" "weekly" in
    calculate_retention_cohorts period_type_;;
    rows ← objects retention_cohorts;
    let cohorts :=
      merge_sort cohort_le (filter (λ c, period_type c = period_type_) rows) in
    let cohort_data := foldl group_cohort [] cohorts in
    mret (render "analytics/retention.html"
            (RetentionContext period_type_ cohort_data)))).

Definition wallet_trends : ViewFunc :=
  jwt_staff_required (def (λ request,
    wallet_data ← get_wallet_analytics;
    days ← days_param request;
    now ← timezone_now;
    delta ← lift_result (timedelta days);
    start_date ← lift_result (datetime_sub now delta);
    rows ← objects wallet_connections;
    let daily_connections := daily_connections_query start_date rows in
    mret (render "analytics/wallet_trends.html"
            (WalletTrendsContext wallet_data daily_connections days)))).

Definition user_behavior : ViewFunc :=
  jwt_staff_required (def (λ request,
    user_segments ← get_user_segmentation;
    views ← objects page_views;
    let top_pages :=
      take 20 (merge_sort views_ge (page_row <$> map_to_list (group_by_path views))) in
    now ← timezone_now;
    delta ← lift_result (timedelta 7);
    since ← lift_result (datetime_sub now delta);
    let user_journeys :=
      merge_sort journey_le
        (filter (λ v, is_Some (pv_user v) ∧ since ≤ timestamp v) views) in
    mret (render "analytics/user_behavior.html"
            (UserBehaviorContext user_segments top_pages (take 100 user_journeys))))).

Definition api_session_data : ViewFunc :=
  api_view ["GET"]
    (permission_classes [IsAuthenticated]
       (user_passes_test is_staff_user (def (λ request,
          days ← days_param request;
          data ← get_session_analytics days;
          mret {| status_code := HTTP_200_OK; body := SummaryData data |})))).

Definition api_wallet_data : ViewFunc :=
  api_view ["GET"]
    (permission_classes [IsAuthenticated]
       (user_passes_test is_staff_user (def (λ request,
          data ← get_wallet_analytics;
          mret {| status_code := HTTP_200_OK; body := SummaryData data |})))).

Definition api_user_segments : ViewFunc :=
  api_view ["GET"]
    (permission_classes [IsAuthenticated]
       (user_passes_test is_staff_user (def (λ request,
          data ← get_user_segmentation;
          mret {| status_code := HTTP_200_OK; body := SummaryData data |})))).

(** The staff-only read endpoints, by name. *)
Inductive StaffEndpoint :=
| AnalyticsDashboard | RetentionAnalysis | WalletTrends | UserBehavior
| ApiSessionData | ApiWalletData | ApiUserSegments.

Definition staff_endpoint (ep : StaffEndpoint) : ViewFunc :=
  match ep with
  | AnalyticsDashboard => analytics_dashboard
  | RetentionAnalysis => retention_analysis
  | WalletTrends => wallet_trends
  | UserBehavior => user_behavior
  | ApiSessionData => api_session_data
  | ApiWalletData => api_wallet_data
  | ApiUserSegments => api_user_segments
  end.

(** A computation that only reads: whatever it returns or raises, the
    store and the clock are as before. *)
Definition reads_only {A} (c : M A) : Prop :=
  ∀ w, store (c w).2 = store w ∧ clock (c w).2 = clock w.

(** ** Sample users, requests, stores and collaborators *)

Definition anonymous : User := {| pk := 0; is_authenticated := false; is_staff := false |}.
Definition alice : User := {| pk := 7; is_authenticated := true; is_staff := false |}.
Definition staff : User := {| pk := 1; is_authenticated := true; is_staff := true |}.

Definition ParseError : Exception :=
  {| exc_class := "ParseError"; exc_text := "JSON parse error"; api_status := Some 400 |}.

Definition IntegrityError : Exception :=
  {| exc_class := "IntegrityError"; exc_text := "NOT NULL constraint failed";
     api_status := None |}.

Definition post (u : User) (payload : result (gmap string string)) : Request :=
  {| method := "POST"; user := u; auth_failure := None; GET := ∅; data := payload;
     META := {[ "REMOTE_ADDR" := "10.0.0.1" ]} |}.

Definition get_ (u : User) (query : gmap string string) : Request :=
  {| method := "GET"; user := u; auth_failure := None; GET := query; data := Ok ∅;
     META := ∅ |}.

(** A POST whose bearer token the authenticators rejected. *)
Definition post_bad_token (payload : result (gmap string string)) : Request :=
  {| method := "POST"; user := anonymous;
     auth_failure := Some "Given token not valid for any token type";
     GET := ∅; data := payload;
     META := {[ "REMOTE_ADDR" := "10.0.0.1"; "HTTP_AUTHORIZATION" := "Bearer expired" ]} |}.

Definition metamask_success : gmap string string :=
  {[ "provider" := "metamask"; "status" := "success" ]}.

Definition empty_store : Store :=
  {| wallet_connections := []; behavior_metrics := ∅; retention_cohorts := [];
     user_sessions := []; page_views := [] |}.

Definition world_of (s : Store) : World :=
  {| store := s; clock := 1000000; utils_calls := [] |}.

Definition store_with_metrics : Store :=
  {| wallet_connections := []; behavior_metrics := {[ 7%nat := {| update_count := 0 |} ]};
     retention_cohorts := []; user_sessions := []; page_views := [] |}.

Definition attempt (status : string) (t : Timestamp) : WalletConnection :=
  {| wc_id := 0; wc_user := 7; wallet_provider := "metamask"; wallet_address := "";
     connection_status := status; error_message := ""; ip_address := "";
     user_agent := ""; attempted_at := t |}.

Definition store_with_attempts : Store :=
  {| wallet_connections :=
       [attempt "success" 990000; attempt "failed" 950000; attempt "success" 10];
     behavior_metrics := ∅; retention_cohorts := []; user_sessions := [];
     page_views := [] |}.

(** Collaborators to run the views with: aggregators that count rows, a
    Cohort Builder that leaves the store alone, and a database that takes
    or rejects every write. *)
Definition count_sessions (days : Z) (w : World) : nat := length (user_sessions (store w)).
Definition count_connections (w : World) : nat := length (wallet_connections (store w)).
Definition keep_cohorts (period_type : string) (w : World) : result Store := Ok (store w).
Definition never_rejects (w : World) (row : WalletConnection) : option Exception := None.
Definition always_rejects (w : World) (row : WalletConnection) : option Exception :=
  Some IntegrityError.
Definition never_fails (w : World) (uid : nat) : option Exception := None.

Definition metrics_always_fail (w : World) (uid : nat) : option Exception :=
  Some IntegrityError.
Definition builder_fails (period_type : string) (w : World) : result Store :=
  Raise IntegrityError.

Definition cohort_of (d : Z) (p : string) (n total retained : nat) : RetentionCohort :=
  {| cohort_date := d; period_type := p; period_number := n; total_users := total;
     retained_users := retained; retention_rate := Z.of_nat retained # Pos.of_nat total |}.

Definition store_with_cohorts : Store :=
  {| wallet_connections := []; behavior_metrics := ∅;
     retention_cohorts :=
       [cohort_of 0 "weekly" 1 2 1; cohort_of 7 "weekly" 0 1 1;
        cohort_of 0 "monthly" 0 3 3; cohort_of 0 "weekly" 0 2 2];
     user_sessions := []; page_views := [] |}.

Definition view_of (u : option nat) (p : string) (t : Timestamp) : PageView :=
  {| pv_user := u; path := p; timestamp := t |}.

Definition store_with_views : Store :=
  {| wallet_connections := []; behavior_metrics := ∅; retention_cohorts := [];
     user_sessions := [];
     page_views :=
       [view_of (Some 7%nat) "/home" 990000; view_of None "/home" 980000;
        view_of (Some 7%nat) "/mint" 970000; view_of (Some 1%nat) "/home" 100] |}.

Definition session_on (u : nat) (d : Z) : UserSession :=
  {| us_user := u; login_at := d * 86400 |}.

Definition store_with_sessions : Store :=
  {| wallet_connections := []; behavior_metrics := ∅; retention_cohorts := [];
     user_sessions := [session_on 1 0; session_on 2 1; session_on 1 8];
     page_views := [] |}.

(** The row [track_wallet_connection] hands to [objects.create] for a
    parsed payload. *)
Definition tracked_row (request : Request) (d : gmap string string) (w : World)
    : WalletConnection :=
  new_row (user request)
    (dict_get d "provider" "other") (dict_get d "address" "")
    (dict_get d "status" "failed") (dict_get d "error" "")
    (dict_get (META request) "REMOTE_ADDR" "")
    (dict_get (META request) "HTTP_USER_AGENT" "") w.

(** ** Properties of the connection-tracking endpoint *)

Ltac run_gate :=
  unfold api_view, permission_classes, user_passes_test, def, try_except,
    authentication_error, mbind, M_bind, bind, mret, M_ret, ret, raise; simpl.

(** An authenticated user passes every permission class of the model. *)
Lemma authenticated_has_permissions (classes : list Permission) (request : Request) :
  is_authenticated (user request) = true →
  forallb (λ p, has_permission p request) classes = true.
Proof.
  intros Hu. induction classes as [|[|] classes IH]; simpl; [reflexivity| |exact IH].
  rewrite Hu. exact IH.
Qed.

Ltac run_view :=
  unfold data_get, lift_result, objects_create, hasattr_behavior_metrics,
    update_metrics; run_gate.

(** C1, amended: a POST of a caller who is not authenticated is answered
    401 and leaves the world (hence the table of connection records) as it
    was, whatever the payload.  The body is the view's status "error",
    message "User not authenticated" when no credentials were rejected and
    the default permission classes let anonymous callers through; the
    framework answers itself, with its own detail, when the authenticators
    rejected the credentials presented, or when the default permission
    classes require authentication. *)
Theorem track_wallet_connection_unauthenticated (request : Request) (w : World) :
  method request = "POST" →
  is_authenticated (user request) = false →
  ∃ response,
    call track_wallet_connection request w = (Ok response, w)
    ∧ status_code response = 401
    ∧ (auth_failure request = None →
       Forall (λ p, p = AllowAny) DEFAULT_PERMISSION_CLASSES →
       response
       = Response [("status", "error"); ("message", "User not authenticated")]
           HTTP_401_UNAUTHORIZED)
    ∧ (∀ detail, auth_failure request = Some detail →
         response = api_error HTTP_401_UNAUTHORIZED detail)
    ∧ (auth_failure request = None →
       IsAuthenticated ∈ DEFAULT_PERMISSION_CLASSES →
       response
       = api_error HTTP_401_UNAUTHORIZED "Authentication credentials were not provided.").
Proof.
  intros Hm Hu. unfold track_wallet_connection. run_view. rewrite Hu.
  destruct (auth_failure request) as [detail|].
  - eexists. split; [reflexivity|]. split; [reflexivity|].
    split; [discriminate|]. split; [|discriminate].
    intros ? [= <-]. reflexivity.
  - destruct (forallb _ DEFAULT_PERMISSION_CLASSES) eqn:Hperm.
    + rewrite Hm. simpl.
      eexists. split; [reflexivity|]. split; [reflexivity|].
      split; [reflexivity|]. split; [discriminate|].
      intros _ Hin. exfalso.
      rewrite forallb_forall in Hperm. apply list_elem_of_In in Hin.
      specialize (Hperm _ Hin). simpl in Hperm. congruence.
    + eexists. split; [reflexivity|]. split; [reflexivity|].
      split; [|split; [discriminate|reflexivity]].
      intros _ Hall. exfalso.
      assert (Htrue : forallb (λ p, has_permission p request)
                        DEFAULT_PERMISSION_CLASSES = true).
      { clear Hperm. induction Hall as [|p classes -> Hall IH]; [reflexivity|].
        simpl. exact IH. }
      congruence.
Qed.

(** The tracking endpoint on an authenticated POST with a parsed payload,
    step by step. *)
Lemma track_wallet_connection_authenticated (request : Request)
    (d : gmap string string) (w : World) :
  method request = "POST" →
  is_authenticated (user request) = true →
  data request = Ok d →
  call track_wallet_connection request w
  = let row := tracked_row request d w in
    match create_fault w row with
    | Some e =>
        (Ok (Response [("status", "error"); ("message", str e)] HTTP_400_BAD_REQUEST), w)
    | None =>
        let w1 := with_store w (insert_connection row (store w)) in
        if bool_decide (is_Some (behavior_metrics (store w) !! pk (user request))) then
          match update_metrics_fault w1 (pk (user request)) with
          | Some e =>
              (Ok (Response [("status", "error"); ("message", str e)]
                     HTTP_400_BAD_REQUEST), w1)
          | None =>
              (Ok (Response [("status", "success")] HTTP_200_OK),
               with_store w1 (bump_metrics (pk (user request)) (store w1)))
          end
        else (Ok (Response [("status", "success")] HTTP_200_OK), w1)
    end.
Proof.
  intros Hm Hu Hd.
  unfold track_wallet_connection, tracked_row. run_view.
  rewrite Hu, (authenticated_has_permissions _ _ Hu), Hm. simpl.
  rewrite Hd. simpl.
  destruct (create_fault w _); [reflexivity|]. simpl.
  destruct (bool_decide _); [|reflexivity].
  destruct (update_metrics_fault _ _); reflexivity.
Qed.

(** The tracking endpoint never lets an exception out. *)
Lemma track_wallet_connection_total (request : Request) (w : World) :
  ∃ response w', call track_wallet_connection request w = (Ok response, w').
Proof.
  unfold track_wallet_connection. run_view.
  destruct (is_authenticated (user request)) eqn:Hu;
    [|destruct (auth_failure request); [eauto|]];
    (destruct (forallb _ DEFAULT_PERMISSION_CLASSES); [|eauto]);
    (destruct (bool_decide (method request ∈ _)); [|destruct (bool_decide _); eauto]);
    simpl; rewrite ?Hu; [|eauto].
  destruct (data request) as [d|e]; simpl; [|eauto].
  destruct (create_fault w _); simpl; [eauto|].
  destruct (bool_decide _); [|eauto].
  destruct (update_metrics_fault _ _); eauto.
Qed.

(** C4: when the persistence step or the metrics update raises, the
    endpoint answers 400 with the body status "error", message the
    exception's text; and on no request at all does an exception leave the
    endpoint. *)
Theorem track_wallet_connection_exception_400 (request : Request)
    (d : gmap string string) (w w' : World) (e : Exception) :
  method request = "POST" →
  is_authenticated (user request) = true →
  data request = Ok d →
  (let create :=
     objects_create (user request)
       (dict_get d "provider" "other") (dict_get d "address" "")
       (dict_get d "status" "failed") (dict_get d "error" "")
       (dict_get (META request) "REMOTE_ADDR" "")
       (dict_get (META request) "HTTP_USER_AGENT" "") in
   create w = (Raise e, w')
   ∨ ∃ w1, create w = (Ok tt, w1)
           ∧ is_Some (behavior_metrics (store w1) !! pk (user request))
           ∧ update_metrics (user request) w1 = (Raise e, w')) →
  call track_wallet_connection request w
  = (Ok (Response [("status", "error"); ("message", str e)] HTTP_400_BAD_REQUEST), w')
  ∧ HTTP_400_BAD_REQUEST = 400
  ∧ ∀ request0 w0, ∃ response w0',
      call track_wallet_connection request0 w0 = (Ok response, w0').
Proof.
  intros Hm Hu Hd Hraise. split; [|split; [reflexivity|]].
  - rewrite (track_wallet_connection_authenticated request d w Hm Hu Hd).
    unfold tracked_row. simpl in Hraise. unfold objects_create in Hraise.
    destruct Hraise as [Hc|(w1 & Hc & Hhas & Hup)].
    + destruct (create_fault w _); simpl in *; congruence.
    + destruct (create_fault w _); simpl in *; [congruence|].
      injection Hc as <-. simpl in Hhas.
      rewrite bool_decide_eq_true_2 by exact Hhas.
      unfold update_metrics in Hup.
      destruct (update_metrics_fault _ _); congruence.
  - apply track_wallet_connection_total.
Qed.

(** C6: on an authenticated POST the persisted record takes provider
    "other", address "", status "failed" and error message "" for the
    payload fields that are missing, and its IP address and user agent from
    REMOTE_ADDR and HTTP_USER_AGENT of the request context. *)
Theorem track_wallet_connection_defaults (request : Request)
    (d : gmap string string) (w : World) :
  method request = "POST" →
  is_authenticated (user request) = true →
  data request = Ok d →
  create_fault w (tracked_row request d w) = None →
  ∃ row,
    wallet_connections (store (call track_wallet_connection request w).2)
    = wallet_connections (store w) ++ [row]
    ∧ wallet_provider row = default "other" (d !! "provider")
    ∧ wallet_address row = default "" (d !! "address")
    ∧ connection_status row = default "failed" (d !! "status")
    ∧ error_message row = default "" (d !! "error")
    ∧ ip_address row = default "" (META request !! "REMOTE_ADDR")
    ∧ user_agent row = default "" (META request !! "HTTP_USER_AGENT").
Proof.
  intros Hm Hu Hd Hc. exists (tracked_row request d w).
  rewrite (track_wallet_connection_authenticated request d w Hm Hu Hd).
  simpl. rewrite Hc. split.
  - destruct (bool_decide _); [destruct (update_metrics_fault _ _)|]; reflexivity.
  - unfold tracked_row, new_row, dict_get. simpl.
    repeat split; match goal with |- context [?m !! ?k] => destruct (m !! k) end;
      reflexivity.
Qed.

(** C9: on an authenticated POST by a user without behavior metrics the
    record is persisted, no metrics are touched, and the answer is status
    "success" with code 200. *)
Theorem track_wallet_connection_without_metrics (request : Request)
    (d : gmap string string) (w : World) :
  method request = "POST" →
  is_authenticated (user request) = true →
  data request = Ok d →
  create_fault w (tracked_row request d w) = None →
  behavior_metrics (store w) !! pk (user request) = None →
  ∃ row w',
    call track_wallet_connection request w
    = (Ok (Response [("status", "success")] HTTP_200_OK), w')
    ∧ HTTP_200_OK = 200
    ∧ wallet_connections (store w') = wallet_connections (store w) ++ [row]
    ∧ behavior_metrics (store w') = behavior_metrics (store w).
Proof.
  intros Hm Hu Hd Hc Hnone. eexists (tracked_row request d w), _.
  rewrite (track_wallet_connection_authenticated request d w Hm Hu Hd).
  simpl. rewrite Hc, Hnone.
  rewrite bool_decide_eq_false_2 by (intros [? ?]; discriminate).
  repeat split.
Qed.

(** C3, amended: on an authenticated POST with provider "metamask" and
    status "success" on which no persistence step raises, exactly one new
    record with those values is persisted and the answer is "success"; the
    user's behavior metrics are updated exactly once when the user has
    behavior metrics, and not at all when the user has none. *)
Theorem track_wallet_connection_metamask_success (request : Request)
    (d : gmap string string) (w : World) :
  method request = "POST" →
  is_authenticated (user request) = true →
  data request = Ok d →
  d !! "provider" = Some "metamask" →
  d !! "status" = Some "success" →
  create_fault w (tracked_row request d w) = None →
  update_metrics_fault
    (with_store w (insert_connection (tracked_row request d w) (store w)))
    (pk (user request)) = None →
  ∃ w',
    call track_wallet_connection request w
    = (Ok (Response [("status", "success")] HTTP_200_OK), w')
    ∧ one_record_persisted "metamask" "success" (user request) w w'
    ∧ (is_Some (behavior_metrics (store w) !! pk (user request)) →
       metrics_updated_once (user request) w w')
    ∧ (behavior_metrics (store w) !! pk (user request) = None →
       behavior_metrics (store w') = behavior_metrics (store w)).
Proof.
  intros Hm Hu Hd Hp Hs Hc Hup.
  rewrite (track_wallet_connection_authenticated request d w Hm Hu Hd).
  simpl. rewrite Hc, Hup.
  assert (Hrow : ∀ w' : World,
    wallet_connections (store w')
    = wallet_connections (store w) ++ [tracked_row request d w] →
    one_record_persisted "metamask" "success" (user request) w w').
  { intros w' Hw'. exists (tracked_row request d w). split; [exact Hw'|].
    unfold tracked_row, new_row, dict_get. simpl. rewrite Hp, Hs. done. }
  destruct (behavior_metrics (store w) !! pk (user request)) as [m|] eqn:Hbm.
  - rewrite bool_decide_eq_true_2 by eauto.
    eexists. split; [reflexivity|]. split; [apply Hrow; reflexivity|].
    split; [|discriminate]. intros _.
    unfold metrics_updated_once, metrics_updates. simpl.
    rewrite lookup_alter_eq, Hbm. reflexivity.
  - rewrite bool_decide_eq_false_2 by (intros [? ?]; discriminate).
    eexists. split; [reflexivity|]. split; [apply Hrow; reflexivity|].
    split; [intros [? ?]; discriminate|]. reflexivity.
Qed.

(** ** The day-bucketed breakdown *)

Lemma group_by_day_lookup (rows : list WalletConnection) (d : Z) :
  group_by_day rows !! d
  = match length (filter (on_day d) rows) with
    | O => None
    | S n =>
        Some (S n,
              length (filter (λ c, on_day d c ∧ has_status "success" c) rows),
              length (filter (λ c, on_day d c ∧ has_status "failed" c) rows))
    end.
Proof.
  induction rows as [|c rows IH]; [apply lookup_empty|].
  unfold group_by_day. simpl. fold (group_by_day rows).
  rewrite lookup_partial_alter, !filter_cons.
  destruct (decide (date (attempted_at c) = d)) as [Hd|Hd].
  - rewrite (decide_True (P := on_day d c)) by exact Hd. subst d.
    rewrite IH. unfold count_row.
    assert (Hcase : ∀ st,
      length (if decide (on_day (date (attempted_at c)) c ∧ has_status st c)
              then c :: filter (λ c0, on_day (date (attempted_at c)) c0 ∧ has_status st c0) rows
              else filter (λ c0, on_day (date (attempted_at c)) c0 ∧ has_status st c0) rows)
      = (if bool_decide (connection_status c = st)
         then S (length (filter (λ c0, on_day (date (attempted_at c)) c0 ∧ has_status st c0) rows))
         else length (filter (λ c0, on_day (date (attempted_at c)) c0 ∧ has_status st c0) rows))).
    { intros st. unfold has_status. case_bool_decide as Hst.
      - rewrite decide_True by (split; [reflexivity|exact Hst]). reflexivity.
      - rewrite decide_False by (intros [_ ?]; contradiction). reflexivity. }
    rewrite !Hcase. simpl.
    destruct (length (filter (on_day (date (attempted_at c))) rows)) eqn:Hlen.
    + simpl.
      assert (Hnil : filter (on_day (date (attempted_at c))) rows = [])
        by (apply length_zero_iff_nil; exact Hlen).
      assert (Hsub : ∀ st,
        length (filter (λ c0, on_day (date (attempted_at c)) c0 ∧ has_status st c0) rows)
        = 0%nat).
      { intros st.
        rewrite <- (list_filter_filter_l
                      (λ c0, on_day (date (attempted_at c)) c0 ∧ has_status st c0)
                      (on_day (date (attempted_at c)))) by (intros ? [? _]; assumption).
        rewrite Hnil. reflexivity. }
      rewrite !Hsub. reflexivity.
    + reflexivity.
  - rewrite (decide_False (P := on_day d c)) by (unfold on_day; exact Hd).
    rewrite !(decide_False (P := on_day d c ∧ _))
      by (unfold on_day; intros [? _]; contradiction).
    exact IH.
Qed.

Global Instance day_le_transitive : Transitive day_le.
Proof. intros a b c. unfold day_le. lia. Qed.

Global Instance day_le_total : Total day_le.
Proof. intros a b. unfold day_le. lia. Qed.

Lemma StronglySorted_le_NoDup_lt (l : list DayRow) :
  StronglySorted day_le l → NoDup (day <$> l) →
  StronglySorted (λ a b, day a < day b) l.
Proof.
  induction 1 as [|a l Hl IH Hall]; intros Hnd; [constructor|].
  rewrite fmap_cons in Hnd. apply NoDup_cons in Hnd as [Hnotin Hnd].
  constructor; [apply IH; exact Hnd|].
  rewrite Forall_forall in Hall |- *. intros b Hb.
  specialize (Hall b Hb). unfold day_le in Hall.
  assert (day a ≠ day b).
  { intros Heq. apply Hnotin. rewrite Heq. apply list_elem_of_fmap. eauto. }
  lia.
Qed.

Lemma day_row_days (groups : list (Z * (nat * nat * nat))) :
  day <$> (day_row <$> groups) = groups.*1.
Proof.
  induction groups as [|[d [[t s0] f]] groups IH]; [reflexivity|].
  simpl. f_equal. exact IH.
Qed.

Lemma filter_since (P : WalletConnection → Prop) `{!∀ c, Decision (P c)}
    (Q : WalletConnection → Prop) `{!∀ c, Decision (Q c)}
    (start_date : Timestamp) (rows : list WalletConnection) :
  (∀ c, Q c ↔ P c ∧ start_date ≤ attempted_at c) →
  filter P (filter (λ c, start_date ≤ attempted_at c) rows) = filter Q rows.
Proof.
  intros HQ. rewrite list_filter_filter. apply list_filter_iff.
  intros c. symmetry. apply HQ.
Qed.

Lemma daily_connections_query_breakdown (start_date : Timestamp)
    (rows : list WalletConnection) :
  is_daily_breakdown start_date rows (daily_connections_query start_date rows).
Proof.
  unfold daily_connections_query.
  set (since := filter (λ c, start_date ≤ attempted_at c) rows).
  set (groups := map_to_list (group_by_day since)).
  assert (Hperm : merge_sort day_le (day_row <$> groups) ≡ₚ day_row <$> groups)
    by apply merge_sort_Permutation.
  assert (Hdays : day <$> merge_sort day_le (day_row <$> groups) ≡ₚ groups.*1).
  { rewrite Hperm. rewrite day_row_days. reflexivity. }
  assert (Htotal : ∀ d,
    length (filter (on_day d) since) = count_in_window start_date d rows).
  { intros d. unfold count_in_window, since. f_equal.
    apply filter_since. intros c. unfold in_window.
    split; intros [? ?]; split; assumption. }
  assert (Hstatus : ∀ st d,
    length (filter (λ c, on_day d c ∧ has_status st c) since)
    = count_status_in_window st start_date d rows).
  { intros st d. unfold count_status_in_window, since. f_equal.
    apply (filter_since (λ c, on_day d c ∧ has_status st c)).
    intros c. unfold in_window.
    split; intros [[? ?] ?]; repeat split; assumption. }
  split.
  - apply StronglySorted_le_NoDup_lt.
    + apply StronglySorted_merge_sort; apply _.
    + rewrite Hdays. apply NoDup_fst_map_to_list.
  - intros d. rewrite Hdays. unfold groups.
    rewrite list_elem_of_fmap. split.
    + intros ([d' v] & -> & Hin). simpl.
      apply elem_of_map_to_list in Hin.
      rewrite group_by_day_lookup in Hin.
      destruct (filter (on_day d') since) as [|c l] eqn:Hf; [discriminate|].
      assert (Hc : c ∈ filter (on_day d') since) by (rewrite Hf; left).
      apply list_elem_of_filter in Hc as [Hday Hc].
      apply list_elem_of_filter in Hc as [Hstart Hc].
      exists c. split; [exact Hc|]. split; assumption.
    + intros (c & Hc & Hstart & Hday).
      assert (Hin : c ∈ filter (on_day d) since).
      { apply list_elem_of_filter. split; [exact Hday|].
        apply list_elem_of_filter. split; assumption. }
      destruct (filter (on_day d) since) as [|c0 l] eqn:Hf;
        [apply elem_of_nil in Hin; contradiction|].
      eexists (d, _). split; [reflexivity|].
      apply elem_of_map_to_list. rewrite group_by_day_lookup, Hf. reflexivity.
  - intros r Hr. rewrite Hperm in Hr.
    apply list_elem_of_fmap in Hr as ([d v] & -> & Hin).
    apply elem_of_map_to_list in Hin.
    rewrite group_by_day_lookup in Hin.
    rewrite <- Htotal, <- !Hstatus.
    destruct (length (filter (on_day d) since)) eqn:Hlen; [discriminate|].
    injection Hin as <-. simpl. rewrite Hlen. done.
Qed.

(** ** The staff-only gate *)

Lemma staff_gate_anonymous (inner : ViewFunc) (request : Request) (w : World) :
  is_authenticated (user request) = false →
  call (staff_gate inner) request w
  = (Ok (api_error HTTP_401_UNAUTHORIZED
           (default "Authentication credentials were not provided."
              (auth_failure request))), w).
Proof.
  intros Hu. unfold staff_gate. run_gate. rewrite Hu.
  destruct (auth_failure request); reflexivity.
Qed.

Lemma staff_gate_non_staff (inner : ViewFunc) (request : Request) (w : World) :
  method request = "GET" →
  is_authenticated (user request) = true →
  is_staff (user request) = false →
  call (staff_gate inner) request w = (Ok redirect_to_login, w).
Proof.
  intros Hm Hu Hs. unfold staff_gate, is_staff_user. run_gate.
  rewrite Hm, Hu, Hs. reflexivity.
Qed.

Lemma staff_gate_staff (inner : ViewFunc) (request : Request) (w : World) :
  method request = "GET" →
  is_authenticated (user request) = true →
  is_staff (user request) = true →
  call (staff_gate inner) request w
  = match call inner request w with
    | (Ok response, w') => (Ok response, w')
    | (Raise e, w') =>
        match api_status e with
        | Some code => (Ok (api_error code (str e)), w')
        | None => (Raise e, w')
        end
    end.
Proof.
  intros Hm Hu Hs. unfold staff_gate, is_staff_user. run_gate.
  rewrite Hm, Hu, Hs. simpl.
  destruct (call inner request w) as [[response|e] w']; [reflexivity|].
  destruct (api_status e); reflexivity.
Qed.

Lemma staff_endpoint_gate (ep : StaffEndpoint) :
  ∃ inner, staff_endpoint ep = staff_gate inner.
Proof. destruct ep; eexists; reflexivity. Qed.

(** C2, on the code: a staff-only read endpoint answers a GET of an
    anonymous caller 401 (with the detail of the authenticators' error when
    they rejected the credentials, and with "credentials were not provided"
    when there were none), and a GET of an authenticated caller who is not
    staff with the 302 redirect to the login page of [user_passes_test],
    not 403; in both cases the view does not run and the world is
    untouched. *)
Theorem staff_endpoint_unauthorized (ep : StaffEndpoint) (uid : nat)
    (failure : option string) (query payload meta : gmap string string) (w : World) :
  call (staff_endpoint ep)
    {| method := "GET";
       user := {| pk := uid; is_authenticated := false; is_staff := false |};
       auth_failure := failure;
       GET := query; data := Ok payload; META := meta |} w
  = (Ok (api_error 401
           (default "Authentication credentials were not provided." failure)), w)
  ∧ call (staff_endpoint ep)
      {| method := "GET";
         user := {| pk := uid; is_authenticated := true; is_staff := false |};
         auth_failure := failure;
         GET := query; data := Ok payload; META := meta |} w
    = (Ok {| status_code := 302; body := RedirectTo LOGIN_URL |}, w)
  ∧ 302 ≠ HTTP_403_FORBIDDEN.
Proof.
  destruct (staff_endpoint_gate ep) as [inner ->]. split; [|split].
  - apply (staff_gate_anonymous inner
             {| method := "GET";
                user := {| pk := uid; is_authenticated := false; is_staff := false |};
                auth_failure := failure;
                GET := query; data := Ok payload; META := meta |}).
    reflexivity.
  - apply staff_gate_non_staff; reflexivity.
  - discriminate.
Qed.

(** ** Properties of the staff-only views *)

Lemma jwt_staff_required_gate (view_func : ViewFunc) :
  jwt_staff_required view_func = staff_gate (def (λ request, call view_func request)).
Proof. reflexivity. Qed.

Ltac run_body :=
  unfold objects, timezone_now, days_param, lift_result,
    mbind, M_bind, bind, mret, M_ret, ret, raise; simpl.

(** C8, amended: [retention_analysis] hands the Cohort Builder the value of
    the request's "period" parameter as it is, "weekly" when the parameter
    is absent, in one call; that value is one of daily, weekly, monthly
    exactly when the parameter is absent or is itself one of them. *)
Theorem retention_analysis_period_type (request : Request) (w : World) :
  method request = "GET" →
  is_authenticated (user request) = true →
  is_staff (user request) = true →
  builder_periods (utils_calls (call retention_analysis request w).2)
  = builder_periods (utils_calls w) ++ [default "weekly" (GET request !! "period")]
  ∧ (default "weekly" (GET request !! "period") ∈ PERIOD_TYPES
     ↔ GET request !! "period" = None
       ∨ ∃ p, GET request !! "period" = Some p ∧ p ∈ PERIOD_TYPES).
Proof.
  intros Hm Hu Hs. split.
  - unfold retention_analysis. rewrite jwt_staff_required_gate.
    rewrite staff_gate_staff by assumption.
    unfold dict_get, calculate_retention_cohorts. run_body.
    destruct (calculate_retention_cohorts_impl _ w) as [s'|e]; simpl.
    + unfold builder_periods. rewrite omap_app. reflexivity.
    + destruct (api_status e); simpl;
        unfold builder_periods; rewrite omap_app; reflexivity.
  - destruct (GET request !! "period") as [p|]; simpl.
    + split; [intros Hp; right; exists p; split; [reflexivity|exact Hp]|].
      intros [?|(q & [= <-] & Hq)]; [discriminate|exact Hq].
    + split; [intros _; left; reflexivity|]. intros _. unfold PERIOD_TYPES.
      apply list_elem_of_further, list_elem_of_here.
Qed.

(** C7: [wallet_trends] renders, for the window of the caller's "days"
    parameter (30 when absent), the connection records attempted at or
    after now minus that many days, grouped by calendar day with the
    total, the "success" and the "failed" count of each day, ordered by
    day.  The view gets that far when the parameter converts with [int]
    and the window fits [timedelta] and [datetime]. *)
Theorem wallet_trends_daily_connections (request : Request) (w : World) (days : Z) :
  method request = "GET" →
  is_authenticated (user request) = true →
  is_staff (user request) = true →
  (GET request !! "days" = None ∧ days = 30
   ∨ ∃ s, GET request !! "days" = Some s ∧ parse_int s = Some days
          ∧ (String.length s ≤ int_max_str_digits)%nat) →
  -999999999 ≤ days ≤ 999999999 →
  datetime_min ≤ clock w - days * 86400 ≤ datetime_max →
  ∃ daily_connections,
    call wallet_trends request w
    = (Ok (render "analytics/wallet_trends.html"
             (WalletTrendsContext (get_wallet_analytics_impl w) daily_connections days)),
       with_call w Call_get_wallet_analytics)
    ∧ is_daily_breakdown (clock w - days * 86400) (wallet_connections (store w))
        daily_connections.
Proof.
  intros Hm Hu Hs Hdays Hdelta Hrange.
  exists (daily_connections_query (clock w - days * 86400) (wallet_connections (store w))).
  split; [|apply daily_connections_query_breakdown].
  unfold wallet_trends. rewrite jwt_staff_required_gate.
  rewrite staff_gate_staff by assumption. unfold get_wallet_analytics. run_body.
  destruct Hdays as [[Hq ->]|(s & Hq & Hs' & _)]; rewrite Hq;
    [|unfold int; rewrite Hs']; simpl;
    unfold timedelta, datetime_sub;
    repeat (rewrite bool_decide_eq_true_2 by first [exact Hdelta | exact Hrange]; simpl);
    reflexivity.
Qed.

(** C10: when the "days" parameter is a string that [int] rejects,
    [wallet_trends] and [api_session_data] do not answer: the ValueError of
    the conversion leaves the view uncaught, after [wallet_trends] has
    already fetched the wallet analytics and before [api_session_data] has
    done anything. *)
Theorem days_not_an_integer_uncaught (request : Request) (w : World) (s : string) :
  method request = "GET" →
  is_authenticated (user request) = true →
  is_staff (user request) = true →
  GET request !! "days" = Some s →
  is_ascii s →
  parse_int s = None →
  ∃ e,
    exc_class e = "ValueError"
    ∧ call wallet_trends request w = (Raise e, with_call w Call_get_wallet_analytics)
    ∧ call api_session_data request w = (Raise e, w).
Proof.
  intros Hm Hu Hs Hdays _ Hint.
  exists (ValueError ("invalid literal for int() with base 10: '" +:+ s +:+ "'")).
  split; [reflexivity|]. split.
  - unfold wallet_trends. rewrite jwt_staff_required_gate.
    rewrite staff_gate_staff by assumption. unfold get_wallet_analytics. run_body.
    rewrite Hdays. unfold int. rewrite Hint. reflexivity.
  - unfold api_session_data. fold (staff_gate (def (λ request,
          days ← days_param request;
          data ← get_session_analytics days;
          mret {| status_code := HTTP_200_OK; body := SummaryData data |}))).
    rewrite staff_gate_staff by assumption. unfold get_session_analytics. run_body.
    rewrite Hdays. unfold int. rewrite Hint. reflexivity.
Qed.

(** ** Further behaviour of the connection-tracking endpoint *)

(** Every path through the tracking endpoint. *)
Lemma track_wallet_connection_paths (request : Request) (w : World) :
  call track_wallet_connection request w
  = match authentication_error request with
    | Some detail => (Ok (api_error HTTP_401_UNAUTHORIZED detail), w)
    | None =>
    if forallb (λ p, has_permission p request) DEFAULT_PERMISSION_CLASSES then
    if bool_decide (method request = "POST") then
      if is_authenticated (user request) then
        match data request with
        | Ok d =>
            let row := tracked_row request d w in
            match create_fault w row with
            | Some e =>
                (Ok (Response [("status", "error"); ("message", str e)]
                       HTTP_400_BAD_REQUEST), w)
            | None =>
                let w1 := with_store w (insert_connection row (store w)) in
                if bool_decide (is_Some (behavior_metrics (store w) !! pk (user request)))
                then
                  match update_metrics_fault w1 (pk (user request)) with
                  | Some e =>
                      (Ok (Response [("status", "error"); ("message", str e)]
                             HTTP_400_BAD_REQUEST), w1)
                  | None =>
                      (Ok (Response [("status", "success")] HTTP_200_OK),
                       with_store w1 (bump_metrics (pk (user request)) (store w1)))
                  end
                else (Ok (Response [("status", "success")] HTTP_200_OK), w1)
            end
        | Raise e =>
            (Ok (Response [("status", "error"); ("message", str e)]
                   HTTP_400_BAD_REQUEST), w)
        end
      else
        (Ok (Response [("status", "error"); ("message", "User not authenticated")]
               HTTP_401_UNAUTHORIZED), w)
    else if bool_decide (method request = "OPTIONS") then
      (Ok {| status_code := HTTP_200_OK; body := OptionsMetadata |}, w)
    else (Ok (api_error HTTP_405_METHOD_NOT_ALLOWED "Method not allowed."), w)
    else
      (Ok (api_error HTTP_401_UNAUTHORIZED
             "Authentication credentials were not provided."), w)
    end.
Proof.
  destruct (is_authenticated (user request)) eqn:Hu.
  - unfold authentication_error. rewrite Hu.
    rewrite (authenticated_has_permissions _ _ Hu).
    case_bool_decide as Hm.
    + destruct (data request) as [d|e] eqn:Hd.
      * apply track_wallet_connection_authenticated; assumption.
      * unfold track_wallet_connection. run_view.
        rewrite Hu, (authenticated_has_permissions _ _ Hu), Hm. simpl.
        rewrite Hd. reflexivity.
    + unfold track_wallet_connection. run_view.
      rewrite Hu, (authenticated_has_permissions _ _ Hu).
      rewrite bool_decide_eq_false_2
        by (intros Hin; apply list_elem_of_singleton in Hin; contradiction).
      destruct (bool_decide (method request = "OPTIONS")); reflexivity.
  - unfold track_wallet_connection. run_view. rewrite Hu.
    destruct (auth_failure request); [reflexivity|].
    destruct (forallb _ DEFAULT_PERMISSION_CLASSES); [|reflexivity].
    destruct (decide (method request = "POST")) as [Hm|Hm].
    + rewrite (bool_decide_eq_true_2 (method request ∈ ["POST"]))
        by (apply list_elem_of_singleton; exact Hm).
      rewrite (bool_decide_eq_true_2 (method request = "POST")) by exact Hm.
      reflexivity.
    + rewrite (bool_decide_eq_false_2 (method request ∈ ["POST"]))
        by (intros Hin; apply list_elem_of_singleton in Hin; contradiction).
      rewrite (bool_decide_eq_false_2 (method request = "POST")) by exact Hm.
      destruct (bool_decide (method request = "OPTIONS")); reflexivity.
Qed.

(** Only POST reaches the view: unless the framework has already refused
    the caller (rejected credentials, or default permission classes that
    an anonymous caller does not pass: 401), any other method is answered
    by the framework with 405, or with the metadata of OPTIONS; in every
    case the world stays as it was. *)
Theorem track_wallet_connection_other_method (request : Request) (w : World) :
  method request ≠ "POST" →
  ∃ response,
    call track_wallet_connection request w = (Ok response, w)
    ∧ (authentication_error request = None →
       forallb (λ p, has_permission p request) DEFAULT_PERMISSION_CLASSES = true →
       (method request ≠ "OPTIONS" → status_code response = HTTP_405_METHOD_NOT_ALLOWED)
       ∧ (method request = "OPTIONS" → body response = OptionsMetadata))
    ∧ (authentication_error request ≠ None
       ∨ forallb (λ p, has_permission p request) DEFAULT_PERMISSION_CLASSES = false →
       status_code response = HTTP_401_UNAUTHORIZED).
Proof.
  intros Hm. rewrite track_wallet_connection_paths.
  destruct (authentication_error request) as [detail|].
  - eexists. split; [reflexivity|]. split; [discriminate|reflexivity].
  - destruct (forallb _ DEFAULT_PERMISSION_CLASSES).
    + rewrite bool_decide_eq_false_2 by exact Hm.
      case_bool_decide as Hopt; eexists; (split; [reflexivity|]);
        (split; [intros _ _; split; intros; try reflexivity; contradiction|]);
        (intros [?|?]; [contradiction|discriminate]).
    + eexists. split; [reflexivity|]. split; [discriminate|reflexivity].
Qed.

(** A payload that does not parse is caught by the view's own handler: an
    authenticated POST gets 400 with the parser's message and nothing is
    written. *)
Theorem track_wallet_connection_malformed_payload (request : Request) (w : World)
    (e : Exception) :
  method request = "POST" →
  is_authenticated (user request) = true →
  data request = Raise e →
  call track_wallet_connection request w
  = (Ok (Response [("status", "error"); ("message", str e)] HTTP_400_BAD_REQUEST), w).
Proof.
  intros Hm Hu Hd. rewrite track_wallet_connection_paths.
  unfold authentication_error. rewrite (authenticated_has_permissions _ _ Hu).
  rewrite bool_decide_eq_true_2 by exact Hm. rewrite Hu, Hd. reflexivity.
Qed.

(** The record is written before the metrics are updated and there is no
    rollback: when [update_metrics] raises, the answer is 400 but the new
    record stays in the table. *)
Theorem track_wallet_connection_update_failure_keeps_record (request : Request)
    (d : gmap string string) (w : World) (e : Exception) :
  method request = "POST" →
  is_authenticated (user request) = true →
  data request = Ok d →
  create_fault w (tracked_row request d w) = None →
  is_Some (behavior_metrics (store w) !! pk (user request)) →
  update_metrics_fault
    (with_store w (insert_connection (tracked_row request d w) (store w)))
    (pk (user request)) = Some e →
  ∃ w',
    call track_wallet_connection request w
    = (Ok (Response [("status", "error"); ("message", str e)] HTTP_400_BAD_REQUEST), w')
    ∧ wallet_connections (store w')
      = wallet_connections (store w) ++ [tracked_row request d w]
    ∧ behavior_metrics (store w') = behavior_metrics (store w).
Proof.
  intros Hm Hu Hd Hc Hhas Hup.
  rewrite (track_wallet_connection_authenticated request d w Hm Hu Hd).
  simpl. rewrite Hc, Hup. rewrite bool_decide_eq_true_2 by exact Hhas.
  eexists. split; [reflexivity|]. split; reflexivity.
Qed.

(** What the tracking endpoint leaves alone, on every request: the clock,
    the call log, the cohort, session and page-view tables and the metrics
    of every other user; the table of connection records is kept and at
    most one record, of the acting user and stamped with the current time,
    is appended. *)
Theorem track_wallet_connection_frame (request : Request) (w : World) :
  clock (call track_wallet_connection request w).2 = clock w
  ∧ utils_calls (call track_wallet_connection request w).2 = utils_calls w
  ∧ retention_cohorts (store (call track_wallet_connection request w).2)
    = retention_cohorts (store w)
  ∧ user_sessions (store (call track_wallet_connection request w).2)
    = user_sessions (store w)
  ∧ page_views (store (call track_wallet_connection request w).2) = page_views (store w)
  ∧ (wallet_connections (store (call track_wallet_connection request w).2)
     = wallet_connections (store w)
     ∨ ∃ row,
         wallet_connections (store (call track_wallet_connection request w).2)
         = wallet_connections (store w) ++ [row]
         ∧ wc_user row = pk (user request)
         ∧ attempted_at row = clock w)
  ∧ ∀ uid, uid ≠ pk (user request) →
      behavior_metrics (store (call track_wallet_connection request w).2) !! uid
      = behavior_metrics (store w) !! uid.
Proof.
  rewrite track_wallet_connection_paths.
  assert (Hadded : ∀ d, ∃ row,
    wallet_connections (store w) ++ [tracked_row request d w]
    = wallet_connections (store w) ++ [row]
    ∧ wc_user row = pk (user request) ∧ attempted_at row = clock w).
  { intros d. exists (tracked_row request d w). repeat split. }
  destruct (authentication_error request);
    [simpl; repeat split; left; reflexivity|].
  destruct (forallb _ DEFAULT_PERMISSION_CLASSES);
    [|simpl; repeat split; left; reflexivity].
  destruct (bool_decide (method request = "POST"));
    [|destruct (bool_decide (method request = "OPTIONS")); simpl;
      repeat split; left; reflexivity].
  destruct (is_authenticated (user request));
    [|simpl; repeat split; left; reflexivity].
  destruct (data request) as [d|e]; [|simpl; repeat split; left; reflexivity].
  cbv zeta. destruct (create_fault w _); [simpl; repeat split; left; reflexivity|].
  destruct (bool_decide _);
    [destruct (update_metrics_fault _ _)|]; simpl;
    repeat split; try (right; apply Hadded); try reflexivity.
  intros uid Hne. apply lookup_alter_ne. congruence.
Qed.

(** The answer "success" is only given after the record is in the table:
    it tells that the request was an authenticated POST with a payload that
    parsed and that its record was appended. *)
Theorem track_wallet_connection_success_means_persisted (request : Request)
    (w w' : World) :
  call track_wallet_connection request w
  = (Ok (Response [("status", "success")] HTTP_200_OK), w') →
  method request = "POST"
  ∧ is_authenticated (user request) = true
  ∧ ∃ d, data request = Ok d
         ∧ wallet_connections (store w')
           = wallet_connections (store w) ++ [tracked_row request d w].
Proof.
  rewrite track_wallet_connection_paths.
  destruct (authentication_error request); [discriminate|].
  destruct (forallb _ DEFAULT_PERMISSION_CLASSES); [|discriminate].
  case_bool_decide as Hm;
    [|destruct (bool_decide (method request = "OPTIONS")); discriminate].
  destruct (is_authenticated (user request)); [|discriminate].
  destruct (data request) as [d|e]; [|discriminate].
  cbv zeta. intros Hcall. split; [exact Hm|]. split; [reflexivity|].
  exists d. split; [reflexivity|].
  destruct (create_fault w _); [discriminate|].
  destruct (bool_decide _);
    [destruct (update_metrics_fault _ _); [discriminate|]|];
    injection Hcall as <-; reflexivity.
Qed.

(** The endpoint does not deduplicate: the same authenticated POST made
    twice, with a store that takes the writes, leaves two records, one per
    request, and has updated the user's metrics twice when the user has
    metrics. *)
Theorem track_wallet_connection_twice (request : Request) (d : gmap string string)
    (w : World) :
  method request = "POST" →
  is_authenticated (user request) = true →
  data request = Ok d →
  (∀ w0 row, create_fault w0 row = None) →
  (∀ w0 uid, update_metrics_fault w0 uid = None) →
  ∃ row1 row2,
    wallet_connections
      (store (call track_wallet_connection request
                (call track_wallet_connection request w).2).2)
    = wallet_connections (store w) ++ [row1; row2]
    ∧ wallet_provider row1 = wallet_provider row2
    ∧ wallet_address row1 = wallet_address row2
    ∧ connection_status row1 = connection_status row2
    ∧ metrics_updates
        (store (call track_wallet_connection request
                  (call track_wallet_connection request w).2).2) (pk (user request))
      = (if bool_decide (is_Some (behavior_metrics (store w) !! pk (user request)))
         then S (S (metrics_updates (store w) (pk (user request))))
         else metrics_updates (store w) (pk (user request))).
Proof.
  intros Hm Hu Hd Hcreate Hupdate.
  assert (Hrun : ∀ w0,
    (call track_wallet_connection request w0).2
    = if bool_decide (is_Some (behavior_metrics (store w0) !! pk (user request)))
      then with_store w0
             (bump_metrics (pk (user request))
                (insert_connection (tracked_row request d w0) (store w0)))
      else with_store w0 (insert_connection (tracked_row request d w0) (store w0))).
  { intros w0. rewrite (track_wallet_connection_authenticated request d w0 Hm Hu Hd).
    simpl. rewrite Hcreate, Hupdate. destruct (bool_decide _); reflexivity. }
  set (w1 := (call track_wallet_connection request w).2).
  exists (tracked_row request d w), (tracked_row request d w1).
  assert (Hconn1 : wallet_connections (store w1)
                   = wallet_connections (store w) ++ [tracked_row request d w]).
  { unfold w1. rewrite Hrun. destruct (bool_decide _); reflexivity. }
  assert (Hconn2 : wallet_connections (store (call track_wallet_connection request w1).2)
                   = wallet_connections (store w1) ++ [tracked_row request d w1]).
  { rewrite Hrun. destruct (bool_decide _); reflexivity. }
  split; [rewrite Hconn2, Hconn1, <- app_assoc; reflexivity|].
  split; [reflexivity|]. split; [reflexivity|]. split; [reflexivity|].
  assert (Hstep : ∀ w0,
    metrics_updates (store (call track_wallet_connection request w0).2) (pk (user request))
    = (if bool_decide (is_Some (behavior_metrics (store w0) !! pk (user request)))
       then S (metrics_updates (store w0) (pk (user request)))
       else metrics_updates (store w0) (pk (user request)))
    ∧ (is_Some (behavior_metrics (store (call track_wallet_connection request w0).2)
                !! pk (user request))
       ↔ is_Some (behavior_metrics (store w0) !! pk (user request)))).
  { intros w0. rewrite Hrun. unfold metrics_updates.
    destruct (behavior_metrics (store w0) !! pk (user request)) as [m|] eqn:Hbm.
    - rewrite bool_decide_eq_true_2 by eauto. simpl.
      rewrite lookup_alter_eq, Hbm. simpl. split; [reflexivity|]. split; eauto.
    - rewrite bool_decide_eq_false_2 by (intros [? ?]; discriminate). simpl.
      rewrite Hbm. split; reflexivity. }
  destruct (Hstep w) as [Hm1 Hhas1]. destruct (Hstep w1) as [Hm2 _].
  rewrite Hm2. fold w1 in Hm1, Hhas1. rewrite Hm1.
  rewrite (bool_decide_ext _ _ Hhas1).
  destruct (bool_decide _); reflexivity.
Qed.

(** ** Further behaviour of the staff-only endpoints *)

(** Every path through the decorator stack of the staff-only endpoints:
    authentication and permissions first, then the method, then the staff
    test. *)
Lemma staff_gate_paths (inner : ViewFunc) (request : Request) (w : World) :
  call (staff_gate inner) request w
  = if is_authenticated (user request) then
      if bool_decide (method request = "GET") then
        if is_staff (user request) then
          match call inner request w with
          | (Ok response, w') => (Ok response, w')
          | (Raise e, w') =>
              match api_status e with
              | Some code => (Ok (api_error code (str e)), w')
              | None => (Raise e, w')
              end
          end
        else (Ok redirect_to_login, w)
      else if bool_decide (method request = "OPTIONS") then
        (Ok {| status_code := HTTP_200_OK; body := OptionsMetadata |}, w)
      else (Ok (api_error HTTP_405_METHOD_NOT_ALLOWED "Method not allowed."), w)
    else
      (Ok (api_error HTTP_401_UNAUTHORIZED
             (default "Authentication credentials were not provided."
                (auth_failure request))), w).
Proof.
  destruct (is_authenticated (user request)) eqn:Hu;
    [|apply staff_gate_anonymous; exact Hu].
  case_bool_decide as Hm.
  - destruct (is_staff (user request)) eqn:Hs.
    + apply staff_gate_staff; assumption.
    + apply staff_gate_non_staff; assumption.
  - unfold staff_gate. run_gate. rewrite Hu. simpl.
    rewrite bool_decide_eq_false_2
      by (intros Hin; apply list_elem_of_singleton in Hin; contradiction).
    destruct (bool_decide (method request = "OPTIONS")); reflexivity.
Qed.

(** No staff-only endpoint runs its view, returns data or touches the
    world unless the request is a GET of an authenticated staff user: every
    other request gets one of the framework's answers, and an anonymous
    caller gets 401 whatever the method. *)
Theorem staff_endpoint_closed (ep : StaffEndpoint) (request : Request) (w : World) :
  ¬ (method request = "GET"
     ∧ is_authenticated (user request) = true
     ∧ is_staff (user request) = true) →
  ∃ response,
    call (staff_endpoint ep) request w = (Ok response, w)
    ∧ match body response with
      | ErrorDetail _ | RedirectTo _ | OptionsMetadata => True
      | JsonObject _ | SummaryData _ | Rendered _ _ => False
      end
    ∧ (is_authenticated (user request) = false →
       status_code response = HTTP_401_UNAUTHORIZED).
Proof.
  intros Hnot. destruct (staff_endpoint_gate ep) as [inner ->].
  rewrite staff_gate_paths.
  destruct (is_authenticated (user request));
    [|eexists; split; [reflexivity|]; split; [exact I|reflexivity]].
  case_bool_decide as Hm.
  - destruct (is_staff (user request));
      [exfalso; apply Hnot; repeat split; assumption|].
    eexists. split; [reflexivity|]. split; [exact I|discriminate].
  - destruct (bool_decide (method request = "OPTIONS"));
      eexists; (split; [reflexivity|]); (split; [exact I|discriminate]).
Qed.

(** A failure of the Cohort Builder is not caught by [retention_analysis]:
    unless it is one of the framework's own exceptions it leaves the view,
    with the store as the builder left it. *)
Theorem retention_analysis_builder_failure (request : Request) (w : World)
    (e : Exception) :
  method request = "GET" →
  is_authenticated (user request) = true →
  is_staff (user request) = true →
  calculate_retention_cohorts_impl (dict_get (GET request) "period" "weekly") w
  = Raise e →
  api_status e = None →
  call retention_analysis request w
  = (Raise e,
     with_call w (Call_calculate_retention_cohorts
                    (dict_get (GET request) "period" "weekly"))).
Proof.
  intros Hm Hu Hs Hfail Hapi.
  unfold retention_analysis. rewrite jwt_staff_required_gate.
  rewrite staff_gate_staff by assumption.
  unfold calculate_retention_cohorts. run_body.
  rewrite Hfail, Hapi. reflexivity.
Qed.

(** A "days" parameter that converts but does not fit [timedelta], or
    that moves the start of the window out of the years 1 to 9999, ends
    [wallet_trends] in an uncaught OverflowError. *)
Theorem wallet_trends_window_out_of_range (request : Request) (w : World)
    (s : string) (days : Z) :
  method request = "GET" →
  is_authenticated (user request) = true →
  is_staff (user request) = true →
  GET request !! "days" = Some s →
  parse_int s = Some days →
  (String.length s ≤ int_max_str_digits)%nat →
  ¬ (-999999999 ≤ days ≤ 999999999)
  ∨ ¬ (datetime_min ≤ clock w - days * 86400 ≤ datetime_max) →
  ∃ e,
    exc_class e = "OverflowError"
    ∧ api_status e = None
    ∧ call wallet_trends request w = (Raise e, with_call w Call_get_wallet_analytics).
Proof.
  intros Hm Hu Hs Hdays Hint _ Hout.
  unfold wallet_trends. rewrite jwt_staff_required_gate.
  rewrite staff_gate_staff by assumption. unfold get_wallet_analytics. run_body.
  rewrite Hdays. unfold int. rewrite Hint. simpl.
  unfold timedelta, datetime_sub.
  case_bool_decide as Hdelta; simpl.
  - destruct Hout as [Hout|Hout]; [contradiction|].
    rewrite bool_decide_eq_false_2 by exact Hout. simpl.
    eexists. split; [|split; [|reflexivity]]; reflexivity.
  - eexists. split; [|split; [|reflexivity]]; reflexivity.
Qed.

(** [api_session_data] hands the converted "days" parameter, 30 when it is
    absent, to the session aggregator, once, and answers 200 with the
    aggregator's summary; the store is not touched. *)
Theorem api_session_data_days (request : Request) (w : World) (days : Z) :
  method request = "GET" →
  is_authenticated (user request) = true →
  is_staff (user request) = true →
  (GET request !! "days" = None ∧ days = 30
   ∨ ∃ s, GET request !! "days" = Some s ∧ parse_int s = Some days
          ∧ (String.length s ≤ int_max_str_digits)%nat) →
  call api_session_data request w
  = (Ok {| status_code := HTTP_200_OK;
           body := SummaryData (get_session_analytics_impl days w) |},
     with_call w (Call_get_session_analytics days)).
Proof.
  intros Hm Hu Hs Hdays.
  unfold api_session_data. fold (staff_gate (def (λ request,
        days ← days_param request;
        data ← get_session_analytics days;
        mret {| status_code := HTTP_200_OK; body := SummaryData data |}))).
  rewrite staff_gate_staff by assumption. unfold get_session_analytics. run_body.
  destruct Hdays as [[Hq ->]|(s & Hq & Hs' & _)]; rewrite Hq;
    [|unfold int; rewrite Hs']; reflexivity.
Qed.

Lemma reads_only_bind {A B} (c : M A) (k : A → M B) :
  reads_only c → (∀ a, reads_only (k a)) → reads_only (c ≫= k).
Proof.
  intros Hc Hk w. unfold mbind, M_bind, bind.
  specialize (Hc w). destruct (c w) as [[a|e] w1]; simpl in Hc.
  - destruct (Hk a w1) as [Hs Ht]. destruct Hc as [Hs1 Ht1].
    split; congruence.
  - exact Hc.
Qed.

Lemma reads_only_ret {A} (a : A) : reads_only (mret a : M A).
Proof. intros w. split; reflexivity. Qed.

Lemma reads_only_lift {A} (r : result A) : reads_only (lift_result r).
Proof. intros w. destruct r; split; reflexivity. Qed.

Lemma reads_only_days_param (request : Request) : reads_only (days_param request).
Proof.
  unfold days_param. destruct (GET request !! "days");
    [apply reads_only_lift|apply reads_only_ret].
Qed.

Lemma reads_only_staff_gate (inner : ViewFunc) (request : Request) :
  reads_only (call inner request) → reads_only (call (staff_gate inner) request).
Proof.
  intros Hbody w. rewrite staff_gate_paths.
  destruct (is_authenticated (user request)); [|split; reflexivity].
  destruct (bool_decide (method request = "GET"));
    [|destruct (bool_decide (method request = "OPTIONS")); split; reflexivity].
  destruct (is_staff (user request)); [|split; reflexivity].
  specialize (Hbody w).
  destruct (call inner request w) as [[response|e] w']; [exact Hbody|].
  destruct (api_status e); exact Hbody.
Qed.

Ltac reads_only_steps :=
  repeat first
    [ apply reads_only_ret
    | apply reads_only_lift
    | apply reads_only_days_param
    | (intros w0; split; reflexivity)
    | (apply reads_only_bind; [|intros ?]) ].

(** The read endpoints other than [retention_analysis] never write: on
    every request, answered or not, the store and the clock are as
    before. *)
Theorem read_endpoints_leave_store (ep : StaffEndpoint) (request : Request) (w : World) :
  ep ≠ RetentionAnalysis →
  store (call (staff_endpoint ep) request w).2 = store w
  ∧ clock (call (staff_endpoint ep) request w).2 = clock w.
Proof.
  intros Hep. revert w. change (reads_only (call (staff_endpoint ep) request)).
  destruct ep; try contradiction; unfold staff_endpoint; cbv iota.
  - unfold analytics_dashboard. rewrite jwt_staff_required_gate.
    apply reads_only_staff_gate. unfold def, call. reads_only_steps.
  - unfold wallet_trends. rewrite jwt_staff_required_gate.
    apply reads_only_staff_gate. unfold def, call. reads_only_steps.
  - unfold user_behavior. rewrite jwt_staff_required_gate.
    apply reads_only_staff_gate. unfold def, call. reads_only_steps.
  - apply (reads_only_staff_gate (def (λ request,
          days ← days_param request;
          data ← get_session_analytics days;
          mret {| status_code := HTTP_200_OK; body := SummaryData data |}))).
    unfold def, call. reads_only_steps.
  - apply (reads_only_staff_gate (def (λ request,
          data ← get_wallet_analytics;
          mret {| status_code := HTTP_200_OK; body := SummaryData data |}))).
    unfold def, call. reads_only_steps.
  - apply (reads_only_staff_gate (def (λ request,
          data ← get_user_segmentation;
          mret {| status_code := HTTP_200_OK; body := SummaryData data |}))).
    unfold def, call. reads_only_steps.
Qed.

(** ** Further properties of the day-bucketed breakdown *)

Lemma sum_indicator (x : Z) (ds : list Z) :
  NoDup ds →
  sum_list_with (λ d, if decide (d = x) then 1%nat else 0%nat) ds
  = if decide (x ∈ ds) then 1%nat else 0%nat.
Proof.
  induction 1 as [|d ds Hd Hnd IH]; [reflexivity|]. simpl. rewrite IH.
  destruct (decide (d = x)) as [->|Hne].
  - rewrite decide_False by exact Hd.
    rewrite decide_True by apply list_elem_of_here. reflexivity.
  - destruct (decide (x ∈ ds)) as [Hin|Hin].
    + rewrite decide_True by (apply list_elem_of_further; exact Hin). reflexivity.
    + rewrite decide_False; [reflexivity|].
      intros Hin'. apply elem_of_cons in Hin' as [->|Hin']; contradiction.
Qed.

Lemma sum_count_in_window (start_date : Timestamp) (ds : list Z)
    (rows : list WalletConnection) :
  NoDup ds →
  (∀ c, c ∈ rows → start_date ≤ attempted_at c → date (attempted_at c) ∈ ds) →
  sum_list_with (λ d, count_in_window start_date d rows) ds
  = length (filter (λ c, start_date ≤ attempted_at c) rows).
Proof.
  intros Hnd. induction rows as [|c rows IH]; intros Hcover.
  - unfold count_in_window. simpl. clear. induction ds; [reflexivity|assumption].
  - assert (IH' := IH (λ c' Hc', Hcover c' (list_elem_of_further _ _ _ Hc'))).
    assert (Hsplit : sum_list_with (λ d, count_in_window start_date d (c :: rows)) ds
      = Nat.add
          (sum_list_with
             (λ d, if decide (d = date (attempted_at c) ∧ start_date ≤ attempted_at c)
                   then 1%nat else 0%nat) ds)
          (sum_list_with (λ d, count_in_window start_date d rows) ds)).
    { clear. induction ds as [|d ds IHds]; [reflexivity|]. simpl. rewrite IHds.
      unfold count_in_window at 1. rewrite filter_cons. unfold in_window at 1, on_day at 1.
      destruct (decide (start_date ≤ attempted_at c ∧ date (attempted_at c) = d))
        as [[? <-]|Hno].
      - rewrite decide_True by (split; [reflexivity|assumption]).
        simpl. unfold count_in_window. lia.
      - rewrite decide_False by (intros [-> ?]; apply Hno; split; [assumption|reflexivity]).
        unfold count_in_window. lia. }
    rewrite Hsplit, IH', filter_cons.
    destruct (decide (start_date ≤ attempted_at c)) as [Hstart|Hstart].
    + assert (Hind : sum_list_with
          (λ d, if decide (d = date (attempted_at c) ∧ start_date ≤ attempted_at c)
                then 1%nat else 0%nat) ds = 1%nat).
      { transitivity (sum_list_with
          (λ d, if decide (d = date (attempted_at c)) then 1%nat else 0%nat) ds).
        - clear -Hstart. induction ds as [|d ds IHds]; [reflexivity|]. simpl.
          rewrite IHds. f_equal.
          destruct (decide (d = date (attempted_at c))) as [->|Hne].
          + rewrite decide_True by (split; [reflexivity|exact Hstart]). reflexivity.
          + rewrite decide_False by (intros [? _]; contradiction). reflexivity.
        - rewrite (sum_indicator _ _ Hnd). apply decide_True.
          apply Hcover; [apply list_elem_of_here|exact Hstart]. }
      rewrite Hind. reflexivity.
    + assert (Hind : sum_list_with
          (λ d, if decide (d = date (attempted_at c) ∧ start_date ≤ attempted_at c)
                then 1%nat else 0%nat) ds = 0%nat).
      { clear -Hstart. induction ds as [|d ds IHds]; [reflexivity|]. simpl. rewrite IHds.
        rewrite decide_False by (intros [_ ?]; contradiction). reflexivity. }
      rewrite Hind. reflexivity.
Qed.

Lemma status_counts_le (start_date : Timestamp) (d : Z) (rows : list WalletConnection) :
  (count_status_in_window "success" start_date d rows
   + count_status_in_window "failed" start_date d rows
   ≤ count_in_window start_date d rows)%nat.
Proof.
  unfold count_status_in_window, count_in_window.
  induction rows as [|c rows IH]; [reflexivity|].
  rewrite !filter_cons.
  destruct (decide (in_window start_date d c)) as [Hin|Hin].
  - destruct (decide (connection_status c = "success")) as [Hs|Hs].
    + rewrite (decide_True (P := in_window start_date d c ∧ has_status "success" c))
        by (split; assumption).
      rewrite (decide_False (P := in_window start_date d c ∧ has_status "failed" c))
        by (unfold has_status; intros [_ Hf]; rewrite Hs in Hf; discriminate).
      simpl. lia.
    + rewrite (decide_False (P := in_window start_date d c ∧ has_status "success" c))
        by (intros [_ ?]; contradiction).
      destruct (decide (in_window start_date d c ∧ has_status "failed" c)); simpl; lia.
  - rewrite !(decide_False (P := in_window start_date d c ∧ _))
      by (intros [? _]; contradiction).
    exact IH.
Qed.

(** Nothing is lost or counted twice by the day-bucketed breakdown of
    [wallet_trends]: the totals of its rows add up to the number of records
    in the window, every row stands for at least one record, and in each
    row the "success" and "failed" counts together do not exceed the total
    (records with another status make up the difference).  The breakdown
    is empty exactly when no record is in the window. *)
Theorem daily_connections_totals (start_date : Timestamp) (rows : list WalletConnection) :
  sum_list_with total (daily_connections_query start_date rows)
  = length (filter (λ c, start_date ≤ attempted_at c) rows)
  ∧ Forall (λ r, (1 ≤ total r)%nat ∧ (successful r + failed r ≤ total r)%nat)
      (daily_connections_query start_date rows)
  ∧ (daily_connections_query start_date rows = []
     ↔ filter (λ c, start_date ≤ attempted_at c) rows = []).
Proof.
  destruct (daily_connections_query_breakdown start_date rows)
    as [Hsorted Hdays Hcounts].
  set (out := daily_connections_query start_date rows) in *.
  assert (Hnd : NoDup (day <$> out)).
  { clear -Hsorted. induction Hsorted as [|r out Hout IH Hall]; [constructor|].
    rewrite fmap_cons. constructor; [|exact IH].
    intros Hin. apply list_elem_of_fmap in Hin as (r' & Heq & Hr').
    rewrite Forall_forall in Hall. specialize (Hall r' Hr'). lia. }
  assert (Hsum : sum_list_with total out
                 = length (filter (λ c, start_date ≤ attempted_at c) rows)).
  { rewrite <- (sum_count_in_window start_date (day <$> out) rows Hnd).
    - clear -Hcounts. induction out as [|r out IH]; [reflexivity|].
      simpl. rewrite IH.
      + destruct (Hcounts r (list_elem_of_here _ _)) as [-> _]. reflexivity.
      + intros r' Hr'. apply Hcounts. apply list_elem_of_further. exact Hr'.
    - intros c Hc Hstart. apply Hdays. exists c. split; [exact Hc|].
      split; [exact Hstart|reflexivity]. }
  split; [exact Hsum|]. split.
  - apply Forall_forall. intros r Hr.
    destruct (Hcounts r Hr) as (Ht & Hs & Hf). rewrite Ht, Hs, Hf.
    split; [|apply status_counts_le].
    assert (Hday : day r ∈ day <$> out) by (apply list_elem_of_fmap; eauto).
    apply Hdays in Hday as (c & Hc & Hwin).
    unfold count_in_window.
    assert (Hin : c ∈ filter (in_window start_date (day r)) rows)
      by (apply list_elem_of_filter; split; assumption).
    destruct (filter (in_window start_date (day r)) rows);
      [apply elem_of_nil in Hin; contradiction|simpl; lia].
  - split.
    + intros Hnil. rewrite Hnil in Hsum. simpl in Hsum.
      apply length_zero_iff_nil. symmetry. exact Hsum.
    + intros Hnil. destruct out as [|r out']; [reflexivity|]. exfalso.
      assert (Hday : day r ∈ day <$> (r :: out')) by (rewrite fmap_cons; left).
      apply Hdays in Hday as (c & Hc & Hstart & _).
      assert (Hin : c ∈ filter (λ c, start_date ≤ attempted_at c) rows)
        by (apply list_elem_of_filter; split; assumption).
      rewrite Hnil in Hin. apply elem_of_nil in Hin. exact Hin.
Qed.

(** ** The grouping loop of [retention_analysis] *)

Lemma append_at_keys (date_key : Z) (e : CohortEntry)
    (cohort_data : list (Z * list CohortEntry)) :
  (append_at date_key e cohort_data).*1 = cohort_data.*1.
Proof.
  induction cohort_data as [|[k es] rest IH]; [reflexivity|].
  simpl. case_bool_decide; simpl; [reflexivity|]. f_equal. exact IH.
Qed.

Lemma append_at_elem (date_key : Z) (e : CohortEntry)
    (cohort_data : list (Z * list CohortEntry)) (k : Z) (es : list CohortEntry) :
  NoDup cohort_data.*1 →
  (k, es) ∈ append_at date_key e cohort_data →
  (k ≠ date_key ∧ (k, es) ∈ cohort_data)
  ∨ (k = date_key ∧ ∃ es0, (k, es0) ∈ cohort_data ∧ es = es0 ++ [e]).
Proof.
  induction cohort_data as [|[k0 es0] rest IH]; simpl; intros Hnd Hin.
  - apply elem_of_nil in Hin. contradiction.
  - apply NoDup_cons in Hnd as [Hk0 Hnd]. case_bool_decide as Hk.
    + subst k0. apply elem_of_cons in Hin as [[= -> ->]|Hin].
      * right. split; [reflexivity|]. exists es0. split; [left|reflexivity].
      * left. split; [|right; exact Hin].
        intros ->. apply Hk0. apply list_elem_of_fmap. exists (date_key, es).
        split; [reflexivity|exact Hin].
    + apply elem_of_cons in Hin as [[= -> ->]|Hin].
      * left. split; [exact Hk|left].
      * destruct (IH Hnd Hin) as [[Hne Hin']|(-> & es1 & Hin' & ->)].
        -- left. split; [exact Hne|right; exact Hin'].
        -- right. split; [reflexivity|]. exists es1. split; [right; exact Hin'|reflexivity].
Qed.

Lemma group_cohort_keys (cohort_data : list (Z * list CohortEntry))
    (cohort : RetentionCohort) :
  (group_cohort cohort_data cohort).*1
  = if decide (cohort_date cohort ∈ cohort_data.*1) then cohort_data.*1
    else cohort_data.*1 ++ [cohort_date cohort].
Proof.
  unfold group_cohort. rewrite append_at_keys.
  case_bool_decide as Hin.
  - rewrite decide_True by exact Hin. reflexivity.
  - rewrite decide_False by exact Hin. rewrite fmap_app. reflexivity.
Qed.

(** One turn of the loop keeps the dictionary a grouping of the cohorts
    seen so far. *)
Lemma group_cohort_step (cohort_data : list (Z * list CohortEntry))
    (seen : list RetentionCohort) (cohort : RetentionCohort) :
  NoDup cohort_data.*1 →
  (∀ k, k ∈ cohort_data.*1 ↔ k ∈ cohort_date <$> seen) →
  (∀ k es, (k, es) ∈ cohort_data →
     es = cohort_entry <$> filter (λ c, cohort_date c = k) seen) →
  NoDup (group_cohort cohort_data cohort).*1
  ∧ (∀ k, k ∈ (group_cohort cohort_data cohort).*1
          ↔ k ∈ cohort_date <$> (seen ++ [cohort]))
  ∧ (∀ k es, (k, es) ∈ group_cohort cohort_data cohort →
       es = cohort_entry <$> filter (λ c, cohort_date c = k) (seen ++ [cohort])).
Proof.
  intros Hnd Hkeys Hgroups.
  assert (Hnd' : NoDup (group_cohort cohort_data cohort).*1).
  { rewrite group_cohort_keys. case_decide as Hin; [exact Hnd|].
    apply NoDup_app. split; [exact Hnd|]. split; [|apply NoDup_singleton].
    intros k Hk Hk'. apply list_elem_of_singleton in Hk'. subst k. contradiction. }
  split; [exact Hnd'|]. split.
  - intros k. rewrite group_cohort_keys, fmap_app, elem_of_app. simpl.
    rewrite list_elem_of_singleton, <- Hkeys.
    case_decide as Hin.
    + split; [intros ?; left; assumption|].
      intros [?| ->]; assumption.
    + rewrite elem_of_app, list_elem_of_singleton. reflexivity.
  - intros k es Hin. unfold group_cohort in Hin.
    set (cohort_data' :=
           if bool_decide (cohort_date cohort ∈ cohort_data.*1) then cohort_data
           else cohort_data ++ [(cohort_date cohort, [])]) in *.
    assert (Hnd1 : NoDup cohort_data'.*1).
    { rewrite <- (append_at_keys (cohort_date cohort) (cohort_entry cohort)).
      exact Hnd'. }
    assert (Hgroups1 : ∀ k es, (k, es) ∈ cohort_data' →
              es = cohort_entry <$> filter (λ c, cohort_date c = k) seen).
    { intros k1 es1 Hin1. unfold cohort_data' in Hin1.
      case_bool_decide as Hmem; [apply Hgroups; exact Hin1|].
      apply elem_of_app in Hin1 as [Hin1|Hin1]; [apply Hgroups; exact Hin1|].
      apply list_elem_of_singleton in Hin1. injection Hin1 as -> ->.
      assert (Hnone : filter (λ c, cohort_date c = cohort_date cohort) seen = []).
      { destruct (filter _ seen) as [|c l] eqn:Hf; [reflexivity|]. exfalso.
        assert (Hc : c ∈ filter (λ c, cohort_date c = cohort_date cohort) seen)
          by (rewrite Hf; left).
        apply list_elem_of_filter in Hc as [Hdate Hc].
        apply Hmem, Hkeys. apply list_elem_of_fmap. exists c. split; [symmetry|]; assumption. }
      rewrite Hnone. reflexivity. }
    rewrite filter_app, fmap_app, filter_cons, filter_nil.
    destruct (append_at_elem _ _ _ _ _ Hnd1 Hin) as [[Hne Hin']|(-> & es0 & Hin' & ->)].
    + rewrite decide_False by (intros Heq; apply Hne; symmetry; exact Heq).
      rewrite app_nil_r. apply Hgroups1. exact Hin'.
    + rewrite decide_True by reflexivity. simpl.
      rewrite (Hgroups1 _ _ Hin'). reflexivity.
Qed.

Lemma group_cohort_fold (cohorts : list RetentionCohort) :
  ∀ (cohort_data : list (Z * list CohortEntry)) (seen : list RetentionCohort),
    NoDup cohort_data.*1 →
    (∀ k, k ∈ cohort_data.*1 ↔ k ∈ cohort_date <$> seen) →
    (∀ k es, (k, es) ∈ cohort_data →
       es = cohort_entry <$> filter (λ c, cohort_date c = k) seen) →
    NoDup (foldl group_cohort cohort_data cohorts).*1
    ∧ (∀ k, k ∈ (foldl group_cohort cohort_data cohorts).*1
            ↔ k ∈ cohort_date <$> (seen ++ cohorts))
    ∧ (∀ k es, (k, es) ∈ foldl group_cohort cohort_data cohorts →
         es = cohort_entry <$> filter (λ c, cohort_date c = k) (seen ++ cohorts)).
Proof.
  induction cohorts as [|cohort cohorts IH]; intros cohort_data seen Hnd Hkeys Hgroups.
  - simpl. rewrite app_nil_r. split; [exact Hnd|]. split; assumption.
  - simpl. replace (seen ++ cohort :: cohorts) with ((seen ++ [cohort]) ++ cohorts)
      by (rewrite <- app_assoc; reflexivity).
    destruct (group_cohort_step cohort_data seen cohort Hnd Hkeys Hgroups)
      as (Hnd' & Hkeys' & Hgroups').
    apply IH; assumption.
Qed.

(** The loop of [retention_analysis] builds a dictionary with one key per
    cohort date that occurs, each key once, and under every key the
    entries of the cohorts of that date, all of them and in the order the
    query returned them. *)
Theorem group_cohort_groups (cohorts : list RetentionCohort) :
  NoDup (foldl group_cohort [] cohorts).*1
  ∧ (∀ k, k ∈ (foldl group_cohort [] cohorts).*1 ↔ k ∈ cohort_date <$> cohorts)
  ∧ (∀ k es, (k, es) ∈ foldl group_cohort [] cohorts →
       es = cohort_entry <$> filter (λ c, cohort_date c = k) cohorts).
Proof.
  apply (group_cohort_fold cohorts [] []).
  - constructor.
  - intros k. reflexivity.
  - intros k es Hin. apply elem_of_nil in Hin. contradiction.
Qed.

Global Instance cohort_le_transitive : Transitive cohort_le.
Proof. intros a b c. unfold cohort_le. lia. Qed.

Global Instance cohort_le_total : Total cohort_le.
Proof. intros a b. unfold cohort_le. lia. Qed.

Lemma StronglySorted_weaken {A} (R1 R2 : relation A) (l : list A) :
  (∀ x y, R1 x y → R2 x y) → StronglySorted R1 l → StronglySorted R2 l.
Proof.
  intros Himpl. induction 1 as [|x l Hl IH Hall]; constructor; [exact IH|].
  eapply Forall_impl; [exact Hall|]. intros y. apply Himpl.
Qed.

Lemma StronglySorted_filter {A} (R : relation A) (P : A → Prop)
    `{!∀ x, Decision (P x)} (l : list A) :
  StronglySorted R l → StronglySorted R (filter P l).
Proof.
  induction 1 as [|x l Hl IH Hall]; [constructor|].
  rewrite filter_cons. case_decide; [|exact IH].
  constructor; [exact IH|].
  rewrite Forall_forall in Hall |- *. intros y Hy.
  apply list_elem_of_filter in Hy as [_ Hy]. apply Hall. exact Hy.
Qed.

Lemma group_cohort_keys_sorted (cohorts : list RetentionCohort) :
  ∀ (cohort_data : list (Z * list CohortEntry)) (seen : list RetentionCohort),
    (∀ k, k ∈ cohort_data.*1 ↔ k ∈ cohort_date <$> seen) →
    StronglySorted (λ a b, b < a) cohort_data.*1 →
    StronglySorted (λ a b, cohort_date b ≤ cohort_date a) (seen ++ cohorts) →
    StronglySorted (λ a b, b < a) (foldl group_cohort cohort_data cohorts).*1.
Proof.
  induction cohorts as [|cohort cohorts IH]; intros cohort_data seen Hkeys Hsorted Hdesc;
    [exact Hsorted|].
  simpl. apply (IH _ (seen ++ [cohort])).
  - intros k. rewrite group_cohort_keys, fmap_app, elem_of_app. simpl.
    rewrite list_elem_of_singleton, <- Hkeys.
    case_decide as Hin.
    + split; [intros ?; left; assumption|]. intros [?| ->]; assumption.
    + rewrite elem_of_app, list_elem_of_singleton. reflexivity.
  - rewrite group_cohort_keys. case_decide as Hin; [exact Hsorted|].
    apply StronglySorted_app_2; [|exact Hsorted|repeat constructor].
    intros k1 k2 Hk1 Hk2. apply list_elem_of_singleton in Hk2. subst k2.
    assert (Hne : k1 ≠ cohort_date cohort) by (intros ->; contradiction).
    apply Hkeys in Hk1. apply list_elem_of_fmap in Hk1 as (c & -> & Hc).
    assert (Hle : cohort_date cohort ≤ cohort_date c).
    { apply (StronglySorted_app_1_elem_of _ _ _ _ _ Hdesc Hc). left. }
    lia.
  - rewrite <- app_assoc. exact Hdesc.
Qed.

(** What [retention_analysis] renders when the Cohort Builder has run: the
    rows of the requested period type, grouped by cohort date with the
    latest date first, every date once, and within a date by ascending
    period number. *)
Theorem retention_analysis_renders_groups (request : Request) (w : World)
    (p : string) (s' : Store) :
  method request = "GET" →
  is_authenticated (user request) = true →
  is_staff (user request) = true →
  dict_get (GET request) "period" "weekly" = p →
  calculate_retention_cohorts_impl p w = Ok s' →
  ∃ cohort_data,
    call retention_analysis request w
    = (Ok (render "analytics/retention.html" (RetentionContext p cohort_data)),
       with_store (with_call w (Call_calculate_retention_cohorts p)) s')
    ∧ StronglySorted (λ a b, b < a) cohort_data.*1
    ∧ (∀ k, k ∈ cohort_data.*1
            ↔ ∃ c, c ∈ retention_cohorts s' ∧ period_type c = p ∧ cohort_date c = k)
    ∧ (∀ k es, (k, es) ∈ cohort_data →
         es ≡ₚ cohort_entry
                 <$> filter (λ c, period_type c = p ∧ cohort_date c = k)
                       (retention_cohorts s')
         ∧ StronglySorted (λ a b, (ce_period a ≤ ce_period b)%nat) es).
Proof.
  intros Hm Hu Hs Hp Hrun.
  set (cohorts := merge_sort cohort_le
                    (filter (λ c, period_type c = p) (retention_cohorts s'))).
  exists (foldl group_cohort [] cohorts).
  assert (Hperm : cohorts ≡ₚ filter (λ c, period_type c = p) (retention_cohorts s'))
    by apply merge_sort_Permutation.
  assert (Hsorted : StronglySorted cohort_le cohorts)
    by (apply StronglySorted_merge_sort; apply _).
  destruct (group_cohort_groups cohorts) as (_ & Hkeys & Hgroups).
  split; [|split; [|split]].
  - unfold retention_analysis. rewrite jwt_staff_required_gate.
    rewrite staff_gate_staff by assumption.
    unfold calculate_retention_cohorts. run_body. rewrite Hp, Hrun. reflexivity.
  - apply (group_cohort_keys_sorted cohorts [] []).
    + intros k. reflexivity.
    + constructor.
    + simpl. eapply StronglySorted_weaken; [|exact Hsorted].
      intros a b. unfold cohort_le. lia.
  - intros k. rewrite Hkeys, list_elem_of_fmap. split.
    + intros (c & -> & Hc). rewrite Hperm in Hc.
      apply list_elem_of_filter in Hc as [Hpt Hc]. exists c. repeat split; assumption.
    + intros (c & Hc & Hpt & Hk). exists c. split; [symmetry; exact Hk|].
      rewrite Hperm. apply list_elem_of_filter. split; assumption.
  - intros k es Hin. rewrite (Hgroups k es Hin). split.
    + rewrite Hperm, list_filter_filter.
      rewrite (list_filter_iff (λ c, cohort_date c = k ∧ period_type c = p)
                 (λ c, period_type c = p ∧ cohort_date c = k));
        [reflexivity|].
      intros c. split; intros [? ?]; split; assumption.
    + apply (StronglySorted_fmap cohort_entry
               (λ a b, cohort_le a b ∧ cohort_date a = k ∧ cohort_date b = k)).
      * intros a b (Hle & Ha & Hb). unfold cohort_le in Hle. simpl. lia.
      * assert (Hf : StronglySorted cohort_le (filter (λ c, cohort_date c = k) cohorts))
          by (apply StronglySorted_filter; exact Hsorted).
        assert (Hall : Forall (λ c, cohort_date c = k)
                         (filter (λ c, cohort_date c = k) cohorts)).
        { apply Forall_forall. intros c Hc.
          apply list_elem_of_filter in Hc as [Hc _]. exact Hc. }
        revert Hf Hall. generalize (filter (λ c, cohort_date c = k) cohorts).
        intros l Hf. induction Hf as [|x l Hl IH Hx]; intros Hall; [constructor|].
        apply Forall_cons in Hall as [Hxk Hall].
        constructor; [apply IH; exact Hall|].
        rewrite Forall_forall in Hx, Hall |- *. intros y Hy.
        split; [apply Hx; exact Hy|]. split; [exact Hxk|apply Hall; exact Hy].
Qed.

(** ** The dashboard and the behaviour page *)

Global Instance login_ge_transitive : Transitive login_ge.
Proof. intros a b c. unfold login_ge. lia. Qed.
Global Instance login_ge_total : Total login_ge.
Proof. intros a b. unfold login_ge. lia. Qed.
Global Instance attempted_ge_transitive : Transitive attempted_ge.
Proof. intros a b c. unfold attempted_ge. lia. Qed.
Global Instance attempted_ge_total : Total attempted_ge.
Proof. intros a b. unfold attempted_ge. lia. Qed.

(** [order_by(...)[:n]]: the first [n] rows of the sorted table come
    before all the others in the order. *)
Lemma sorted_take_first {A} (R : relation A) `{!RelDecision R, !Transitive R, !Total R}
    (n : nat) (l : list A) :
  length (take n (merge_sort R l)) = Nat.min n (length l)
  ∧ StronglySorted R (take n (merge_sort R l))
  ∧ ∃ rest, take n (merge_sort R l) ++ rest ≡ₚ l
            ∧ ∀ x y, x ∈ take n (merge_sort R l) → y ∈ rest → R x y.
Proof.
  assert (Hsorted : StronglySorted R (merge_sort R l))
    by (apply StronglySorted_merge_sort; assumption).
  rewrite <- (take_drop n (merge_sort R l)) in Hsorted.
  split; [|split].
  - rewrite length_take. f_equal. apply Permutation_length, merge_sort_Permutation.
  - apply (StronglySorted_app_1_l _ _ _ Hsorted).
  - exists (drop n (merge_sort R l)). split.
    + rewrite take_drop. apply merge_sort_Permutation.
    + intros x y. apply (StronglySorted_app_1_elem_of _ _ _ _ _ Hsorted).
Qed.

(** [analytics_dashboard] always asks for the session analytics of 30
    days, whatever the request says, then for the wallet analytics and the
    segmentation; it shows at most ten sessions and ten connection
    attempts, the most recent ones, latest first. *)
Theorem analytics_dashboard_recent (request : Request) (w : World) :
  method request = "GET" →
  is_authenticated (user request) = true →
  is_staff (user request) = true →
  ∃ session_data wallet_data user_segments recent_sessions recent_connections w',
    call analytics_dashboard request w
    = (Ok (render "analytics/dashboard.html"
             (DashboardContext session_data wallet_data user_segments
                recent_sessions recent_connections)), w')
    ∧ utils_calls w'
      = utils_calls w ++ [Call_get_session_analytics 30; Call_get_wallet_analytics;
                          Call_get_user_segmentation]
    ∧ length recent_sessions = Nat.min 10 (length (user_sessions (store w)))
    ∧ StronglySorted login_ge recent_sessions
    ∧ (∃ older, recent_sessions ++ older ≡ₚ user_sessions (store w)
                ∧ ∀ x y, x ∈ recent_sessions → y ∈ older → login_at y ≤ login_at x)
    ∧ length recent_connections = Nat.min 10 (length (wallet_connections (store w)))
    ∧ StronglySorted attempted_ge recent_connections
    ∧ (∃ older, recent_connections ++ older ≡ₚ wallet_connections (store w)
                ∧ ∀ x y, x ∈ recent_connections → y ∈ older →
                         attempted_at y ≤ attempted_at x).
Proof.
  intros Hm Hu Hs.
  destruct (sorted_take_first login_ge 10 (user_sessions (store w)))
    as (Hlen1 & Hsorted1 & Hrest1).
  destruct (sorted_take_first attempted_ge 10 (wallet_connections (store w)))
    as (Hlen2 & Hsorted2 & Hrest2).
  do 6 eexists. split.
  - unfold analytics_dashboard. rewrite jwt_staff_required_gate.
    rewrite staff_gate_staff by assumption.
    unfold get_session_analytics, get_wallet_analytics, get_user_segmentation.
    unfold objects, mbind, M_bind, bind, mret, M_ret, ret, def, call.
    reflexivity.
  - split; [simpl; rewrite <- !app_assoc; reflexivity|].
    split; [exact Hlen1|]. split; [exact Hsorted1|]. split; [exact Hrest1|].
    split; [exact Hlen2|]. split; [exact Hsorted2|exact Hrest2].
Qed.

Global Instance views_ge_transitive : Transitive views_ge.
Proof. intros a b c. unfold views_ge. lia. Qed.
Global Instance views_ge_total : Total views_ge.
Proof. intros a b. unfold views_ge. lia. Qed.

Global Instance journey_le_transitive : Transitive journey_le.
Proof.
  intros a b c. unfold journey_le.
  destruct (pv_user a), (pv_user b), (pv_user c); try tauto; lia.
Qed.
Global Instance journey_le_total : Total journey_le.
Proof.
  intros a b. unfold journey_le.
  destruct (pv_user a), (pv_user b); try tauto; lia.
Qed.

Lemma group_by_path_lookup (rows : list PageView) (p : string) :
  group_by_path rows !! p
  = match filter (λ v, path v = p) rows with
    | [] => None
    | vs => Some (length vs, list_to_set (omap pv_user vs))
    end.
Proof.
  induction rows as [|v rows IH]; [apply lookup_empty|].
  unfold group_by_path. simpl. fold (group_by_path rows).
  rewrite lookup_partial_alter, filter_cons.
  destruct (decide (path v = p)) as [Hp|Hp].
  - subst p. rewrite IH. unfold count_view.
    destruct (filter (λ v0, path v0 = path v) rows) as [|v1 vs];
      simpl; destruct (pv_user v); reflexivity.
  - exact IH.
Qed.

(** The top pages of [user_behavior]: at most twenty rows, one per path,
    most viewed first; a row counts all the page views of its path and the
    distinct users among them, anonymous views aside; and no path left out
    has more views than a path shown. *)
Theorem user_behavior_top_pages (request : Request) (w : World) :
  method request = "GET" →
  is_authenticated (user request) = true →
  is_staff (user request) = true →
  datetime_min ≤ clock w - 7 * 86400 ≤ datetime_max →
  ∃ user_segments top_pages user_journeys w',
    call user_behavior request w
    = (Ok (render "analytics/user_behavior.html"
             (UserBehaviorContext user_segments top_pages user_journeys)), w')
    ∧ (length top_pages ≤ 20)%nat
    ∧ NoDup (pr_path <$> top_pages)
    ∧ StronglySorted views_ge top_pages
    ∧ (∀ r, r ∈ top_pages →
         (1 ≤ view_count r)%nat
         ∧ view_count r = length (filter (λ v, path v = pr_path r) (page_views (store w)))
         ∧ unique_users r
           = size (list_to_set (C := gset nat)
                     (omap pv_user
                        (filter (λ v, path v = pr_path r) (page_views (store w))))))
    ∧ (∀ v r, v ∈ page_views (store w) → path v ∉ pr_path <$> top_pages →
         r ∈ top_pages →
         (length (filter (λ v', path v' = path v) (page_views (store w)))
          ≤ view_count r)%nat).
Proof.
  intros Hm Hu Hs Hrange.
  set (views := page_views (store w)).
  set (groups := page_row <$> map_to_list (group_by_path views)).
  assert (Hrow : ∀ r, r ∈ groups →
    (1 ≤ view_count r)%nat
    ∧ view_count r = length (filter (λ v, path v = pr_path r) views)
    ∧ unique_users r
      = size (list_to_set (C := gset nat)
                (omap pv_user (filter (λ v, path v = pr_path r) views)))).
  { intros r Hr. apply list_elem_of_fmap in Hr as ([p0 [n us]] & -> & Hin).
    apply elem_of_map_to_list in Hin. rewrite group_by_path_lookup in Hin.
    unfold page_row. simpl.
    destruct (filter (λ v, path v = p0) views) as [|v vs]; [discriminate|].
    injection Hin as <- <-. split; [simpl; lia|]. split; reflexivity. }
  assert (Hpaths : pr_path <$> groups = (map_to_list (group_by_path views)).*1).
  { unfold groups. rewrite <- list_fmap_compose. reflexivity. }
  destruct (sorted_take_first views_ge 20 groups) as (Hlen & Hsorted & rest & Hperm & Hrest).
  assert (Hperm' : take 20 (merge_sort views_ge groups) ++ rest ≡ₚ groups) by exact Hperm.
  exists (get_user_segmentation_impl w), (take 20 (merge_sort views_ge groups)),
    (take 100 (merge_sort journey_le
                 (filter (λ v, is_Some (pv_user v) ∧ clock w - 7 * 86400 ≤ timestamp v)
                    views))),
    (with_call w Call_get_user_segmentation).
  split; [|split; [|split; [|split; [|split]]]].
  - unfold user_behavior. rewrite jwt_staff_required_gate.
    rewrite staff_gate_staff by assumption.
    unfold get_user_segmentation, timedelta, datetime_sub.
    unfold objects, timezone_now, lift_result, mbind, M_bind, bind, mret, M_ret, ret,
      def, call.
    cbv beta iota.
    rewrite (bool_decide_eq_true_2 (-999999999 ≤ 7 ≤ 999999999)) by lia.
    cbv beta iota. unfold with_call at 1 2. unfold clock at 1.
    rewrite bool_decide_eq_true_2 by exact Hrange.
    reflexivity.
  - rewrite Hlen. lia.
  - apply (sublist_NoDup _ (pr_path <$> merge_sort views_ge groups)).
    + rewrite merge_sort_Permutation, Hpaths. apply NoDup_fst_map_to_list.
    + apply fmap_sublist, sublist_take.
  - exact Hsorted.
  - intros r Hr. apply Hrow.
    rewrite <- Hperm'. apply elem_of_app. left. exact Hr.
  - intros v r Hv Hnot Hr.
    assert (Hv' : v ∈ filter (λ v', path v' = path v) views)
      by (apply list_elem_of_filter; split; [reflexivity|exact Hv]).
    assert (Hg : ∃ r', r' ∈ groups ∧ pr_path r' = path v).
    { destruct (filter (λ v', path v' = path v) views) as [|v1 vs] eqn:Hf;
        [apply elem_of_nil in Hv'; contradiction|].
      eexists (page_row (path v, _)). split; [|reflexivity].
      apply list_elem_of_fmap. eexists. split; [reflexivity|].
      apply elem_of_map_to_list. rewrite group_by_path_lookup.
      rewrite Hf. reflexivity. }
    destruct Hg as (r' & Hr' & Hpath).
    destruct (Hrow r' Hr') as (_ & Hcount & _). rewrite Hpath in Hcount.
    rewrite <- Hcount.
    rewrite <- Hperm' in Hr'. apply elem_of_app in Hr' as [Hr'|Hr'].
    + exfalso. apply Hnot. rewrite <- Hpath. apply list_elem_of_fmap. eauto.
    + apply (Hrest r r' Hr Hr').
Qed.

(** The user journeys of [user_behavior]: the first hundred, in the order
    by user and then by time, of the page views of a known user that are no
    older than seven days.  What is shown together with what is left out is
    exactly the qualifying page views, each as often as it occurs, and
    nothing left out comes before something shown; when no more than a
    hundred qualify, nothing is left out. *)
Theorem user_behavior_journeys (request : Request) (w : World) :
  method request = "GET" →
  is_authenticated (user request) = true →
  is_staff (user request) = true →
  datetime_min ≤ clock w - 7 * 86400 ≤ datetime_max →
  ∃ user_segments top_pages user_journeys w',
    call user_behavior request w
    = (Ok (render "analytics/user_behavior.html"
             (UserBehaviorContext user_segments top_pages user_journeys)), w')
    ∧ utils_calls w' = utils_calls w ++ [Call_get_user_segmentation]
    ∧ length user_journeys
      = Nat.min 100
          (length (filter (λ v, is_Some (pv_user v) ∧ clock w - 7 * 86400 ≤ timestamp v)
                     (page_views (store w))))
    ∧ StronglySorted journey_le user_journeys
    ∧ (∀ v, v ∈ user_journeys →
         v ∈ page_views (store w)
         ∧ is_Some (pv_user v)
         ∧ clock w - 7 * 86400 ≤ timestamp v)
    ∧ ∃ left_out,
        user_journeys ++ left_out
        ≡ₚ filter (λ v, is_Some (pv_user v) ∧ clock w - 7 * 86400 ≤ timestamp v)
             (page_views (store w))
        ∧ ∀ x y, x ∈ user_journeys → y ∈ left_out → journey_le x y.
Proof.
  intros Hm Hu Hs Hrange.
  set (recent := filter (λ v, is_Some (pv_user v) ∧ clock w - 7 * 86400 ≤ timestamp v)
                   (page_views (store w))).
  destruct (sorted_take_first journey_le 100 recent)
    as (Hlen & Hsorted & rest & Hperm & Hrest).
  assert (Hperm' : take 100 (merge_sort journey_le recent) ++ rest ≡ₚ recent) by exact Hperm.
  exists (get_user_segmentation_impl w),
    (take 20 (merge_sort views_ge
                (page_row <$> map_to_list (group_by_path (page_views (store w)))))),
    (take 100 (merge_sort journey_le recent)),
    (with_call w Call_get_user_segmentation).
  split; [|split; [|split; [|split; [|split]]]].
  - unfold user_behavior. rewrite jwt_staff_required_gate.
    rewrite staff_gate_staff by assumption.
    unfold get_user_segmentation, timedelta, datetime_sub.
    unfold objects, timezone_now, lift_result, mbind, M_bind, bind, mret, M_ret, ret,
      def, call.
    cbv beta iota.
    rewrite (bool_decide_eq_true_2 (-999999999 ≤ 7 ≤ 999999999)) by lia.
    cbv beta iota. unfold with_call at 1 2. unfold clock at 1.
    rewrite bool_decide_eq_true_2 by exact Hrange.
    reflexivity.
  - reflexivity.
  - exact Hlen.
  - exact Hsorted.
  - intros v Hv.
    assert (Hin : v ∈ recent) by (rewrite <- Hperm'; apply elem_of_app; left; exact Hv).
    apply list_elem_of_filter in Hin as [[Huser Htime] Hin]. repeat split; assumption.
  - exists rest. split; [exact Hperm'|exact Hrest].
Qed.

End Views.

(** ** The tracking endpoint on concrete requests *)

Lemma track_wallet_connection_unauthenticated_witness :
  ∃ response,
    call (track_wallet_connection (Summary := nat) never_rejects never_fails [AllowAny])
      (post anonymous (Raise ParseError)) (world_of empty_store)
    = (Ok response, world_of empty_store)
    ∧ status_code response = 401
    ∧ (auth_failure (post anonymous (Raise ParseError)) = None →
       Forall (λ p, p = AllowAny) [AllowAny] →
       response
       = Response [("status", "error"); ("message", "User not authenticated")]
           HTTP_401_UNAUTHORIZED)
    ∧ (∀ detail, auth_failure (post anonymous (Raise ParseError)) = Some detail →
         response = api_error HTTP_401_UNAUTHORIZED detail)
    ∧ (auth_failure (post anonymous (Raise ParseError)) = None →
       IsAuthenticated ∈ [AllowAny] →
       response
       = api_error HTTP_401_UNAUTHORIZED "Authentication credentials were not provided.").
Proof.
  apply (track_wallet_connection_unauthenticated (Summary := nat)
           never_rejects never_fails [AllowAny]
           (post anonymous (Raise ParseError)) (world_of empty_store));
    reflexivity.
Defined.

(** C1 as stated fails: a POST whose bearer token the authenticators
    rejected is unauthenticated, but it is the framework that answers it,
    with the detail of the authentication error and not with the view's
    "User not authenticated"; the view does not run. *)
Lemma track_wallet_connection_rejected_token :
  ¬ (∀ (request : Request) (w : World),
       method request = "POST" →
       is_authenticated (user request) = false →
       call (track_wallet_connection (Summary := nat) never_rejects never_fails
               [AllowAny]) request w
       = (Ok (Response [("status", "error"); ("message", "User not authenticated")]
                HTTP_401_UNAUTHORIZED), w)).
Proof.
  intros Hclaim.
  specialize (Hclaim (post_bad_token (Ok metamask_success)) (world_of empty_store)
                eq_refl eq_refl).
  vm_compute in Hclaim. discriminate.
Qed.

Lemma track_wallet_connection_exception_400_witness :
  call (track_wallet_connection (Summary := nat) always_rejects never_fails [AllowAny])
    (post alice (Ok metamask_success)) (world_of empty_store)
  = (Ok (Response [("status", "error"); ("message", "NOT NULL constraint failed")]
           HTTP_400_BAD_REQUEST), world_of empty_store).
Proof.
  apply (track_wallet_connection_exception_400 (Summary := nat)
           always_rejects never_fails [AllowAny]
           (post alice (Ok metamask_success)) metamask_success
           (world_of empty_store) (world_of empty_store) IntegrityError);
    [reflexivity | reflexivity | reflexivity | left; reflexivity].
Defined.

Lemma track_wallet_connection_defaults_witness :
  ∃ row,
    wallet_connections
      (store (call (track_wallet_connection (Summary := nat) never_rejects never_fails [AllowAny])
                (post alice (Ok ∅)) (world_of empty_store)).2)
    = wallet_connections (store (world_of empty_store)) ++ [row]
    ∧ wallet_provider row = "other"
    ∧ wallet_address row = ""
    ∧ connection_status row = "failed"
    ∧ error_message row = ""
    ∧ ip_address row = "10.0.0.1"
    ∧ user_agent row = "".
Proof.
  exact (track_wallet_connection_defaults (Summary := nat) never_rejects never_fails [AllowAny]
           (post alice (Ok ∅)) ∅ (world_of empty_store)
           eq_refl eq_refl eq_refl eq_refl).
Defined.

Lemma track_wallet_connection_without_metrics_witness :
  ∃ row w',
    call (track_wallet_connection (Summary := nat) never_rejects never_fails [AllowAny])
      (post alice (Ok metamask_success)) (world_of empty_store)
    = (Ok (Response [("status", "success")] HTTP_200_OK), w')
    ∧ HTTP_200_OK = 200
    ∧ wallet_connections (store w')
      = wallet_connections (store (world_of empty_store)) ++ [row]
    ∧ behavior_metrics (store w') = behavior_metrics (store (world_of empty_store)).
Proof.
  apply (track_wallet_connection_without_metrics (Summary := nat)
           never_rejects never_fails [AllowAny]
           (post alice (Ok metamask_success)) metamask_success (world_of empty_store));
    reflexivity.
Defined.

Lemma track_wallet_connection_metamask_success_witness :
  ∃ w',
    call (track_wallet_connection (Summary := nat) never_rejects never_fails [AllowAny])
      (post alice (Ok metamask_success)) (world_of store_with_metrics)
    = (Ok (Response [("status", "success")] HTTP_200_OK), w')
    ∧ one_record_persisted "metamask" "success" alice (world_of store_with_metrics) w'
    ∧ (is_Some (behavior_metrics store_with_metrics !! pk alice) →
       metrics_updated_once alice (world_of store_with_metrics) w')
    ∧ (behavior_metrics store_with_metrics !! pk alice = None →
       behavior_metrics (store w') = behavior_metrics store_with_metrics).
Proof.
  apply (track_wallet_connection_metamask_success (Summary := nat)
           never_rejects never_fails [AllowAny]
           (post alice (Ok metamask_success)) metamask_success
           (world_of store_with_metrics));
    reflexivity.
Defined.

(** C3 as stated fails: alice is authenticated and posts provider
    "metamask", status "success" to a database that takes every write, but
    she has no behavior metrics, so none are updated. *)
Lemma track_wallet_connection_metamask_no_update :
  ¬ (∀ (request : Request) (d : gmap string string) (w : World),
       method request = "POST" →
       is_authenticated (user request) = true →
       data request = Ok d →
       d !! "provider" = Some "metamask" →
       d !! "status" = Some "success" →
       let w' := (call (track_wallet_connection (Summary := nat)
                          never_rejects never_fails [AllowAny]) request w).2 in
       one_record_persisted "metamask" "success" (user request) w w'
       ∧ metrics_updated_once (user request) w w').
Proof.
  intros Hclaim.
  destruct (Hclaim (post alice (Ok metamask_success)) metamask_success
              (world_of empty_store)) as [_ Hupdated]; try reflexivity.
  vm_compute in Hupdated. discriminate.
Qed.

(** ** The staff-only views on concrete requests *)

(** C8 as stated fails: a staff GET with period=yearly reaches the Cohort
    Builder with "yearly", which is none of daily, weekly, monthly. *)
Lemma retention_analysis_period_yearly :
  builder_periods
    (utils_calls
       (call (retention_analysis (Summary := nat) keep_cohorts [AllowAny])
          (get_ staff {[ "period" := "yearly" ]}) (world_of empty_store)).2)
  = ["yearly"]
  ∧ "yearly" ∉ PERIOD_TYPES.
Proof.
  split; [reflexivity|].
  apply (bool_decide_eq_false_1 ("yearly" ∈ PERIOD_TYPES)). reflexivity.
Qed.

Lemma retention_analysis_period_type_witness :
  builder_periods
    (utils_calls
       (call (retention_analysis (Summary := nat) keep_cohorts [AllowAny])
          (get_ staff {[ "period" := "monthly" ]}) (world_of empty_store)).2)
  = builder_periods (utils_calls (world_of empty_store)) ++ ["monthly"]
  ∧ ("monthly" ∈ PERIOD_TYPES
     ↔ GET (get_ staff {[ "period" := "monthly" ]}) !! "period" = None
       ∨ ∃ p, GET (get_ staff {[ "period" := "monthly" ]}) !! "period" = Some p
              ∧ p ∈ PERIOD_TYPES).
Proof.
  exact (retention_analysis_period_type (Summary := nat) keep_cohorts [AllowAny]
           (get_ staff {[ "period" := "monthly" ]}) (world_of empty_store)
           eq_refl eq_refl eq_refl).
Defined.

Lemma wallet_trends_daily_connections_witness :
  ∃ daily_connections,
    call (wallet_trends (Summary := nat) count_connections [AllowAny])
      (get_ staff {[ "days" := "1" ]}) (world_of store_with_attempts)
    = (Ok (render "analytics/wallet_trends.html"
             (WalletTrendsContext 3%nat daily_connections 1)),
       with_call (world_of store_with_attempts) Call_get_wallet_analytics)
    ∧ is_daily_breakdown 913600 (wallet_connections store_with_attempts)
        daily_connections.
Proof.
  apply (wallet_trends_daily_connections (Summary := nat) count_connections [AllowAny]
           (get_ staff {[ "days" := "1" ]}) (world_of store_with_attempts) 1);
    [reflexivity | reflexivity | reflexivity
    | right; exists "1"; split; [reflexivity|split; [reflexivity|vm_compute; lia]]
    | lia
    | vm_compute; split; discriminate].
Defined.

Lemma days_not_an_integer_uncaught_witness :
  ∃ e,
    exc_class e = "ValueError"
    ∧ call (wallet_trends (Summary := nat) count_connections [AllowAny])
        (get_ staff {[ "days" := "abc" ]}) (world_of empty_store)
      = (Raise e, with_call (world_of empty_store) Call_get_wallet_analytics)
    ∧ call (api_session_data (Summary := nat) count_sessions [AllowAny])
        (get_ staff {[ "days" := "abc" ]}) (world_of empty_store)
      = (Raise e, world_of empty_store).
Proof.
  apply (days_not_an_integer_uncaught (Summary := nat) count_sessions count_connections [AllowAny]
           (get_ staff {[ "days" := "abc" ]}) (world_of empty_store) "abc");
    [reflexivity | reflexivity | reflexivity | reflexivity
    | repeat constructor | reflexivity].
Defined.

(** ** The Cohort Builder's rows *)

Lemma rate_quotient (retained total : nat) :
  (CohortBuilder.rate retained total
   == inject_Z (Z.of_nat retained) / inject_Z (Z.of_nat total))%Q.
Proof.
  destruct total as [|n]; simpl.
  - unfold Qdiv, Qinv. simpl. rewrite Qmult_0_r. reflexivity.
  - rewrite Qmake_Qdiv. replace (Z.pos (Pos.of_nat (S n))) with (Z.of_nat (S n)) by lia.
    reflexivity.
Qed.

Lemma cohort_rows_elem (p : CohortBuilder.PeriodType) (sessions : list UserSession)
    (now : Timestamp) (row : RetentionCohort) :
  row ∈ CohortBuilder.cohort_rows p sessions now →
  ∃ c n, row = CohortBuilder.cohort_row p sessions c n.
Proof.
  unfold CohortBuilder.cohort_rows.
  destruct (CohortBuilder.earliest _) as [first|]; [|intros H; apply elem_of_nil in H; done].
  simpl. intros Hin.
  apply list_elem_of_bind in Hin as (c & Hin & _).
  apply list_elem_of_bind in Hin as (n & Hin & _).
  apply list_elem_of_singleton in Hin. eauto.
Qed.

Lemma upsert_elem (row r : RetentionCohort) (table : list RetentionCohort) :
  r ∈ CohortBuilder.upsert row table → r = row ∨ r ∈ table.
Proof.
  induction table as [|r0 table IH]; simpl.
  - intros H. apply list_elem_of_singleton in H. left. exact H.
  - destruct (decide _).
    + intros H. apply elem_of_cons in H as [->|H]; [left; reflexivity|].
      right. right. exact H.
    + intros H. apply elem_of_cons in H as [->|H]; [right; left|].
      destruct (IH H) as [->|H']; [left; reflexivity|right; right; exact H'].
Qed.

Lemma upsert_all_elem (rows table : list RetentionCohort) (r : RetentionCohort) :
  r ∈ foldl (λ table row, CohortBuilder.upsert row table) table rows →
  r ∈ rows ∨ r ∈ table.
Proof.
  revert table. induction rows as [|row rows IH]; simpl; intros table H.
  - right. exact H.
  - destruct (IH _ H) as [H'|H']; [left; right; exact H'|].
    destruct (upsert_elem _ _ _ H') as [->|H'']; [left; left|right; exact H''].
Qed.

(** C5: every row the Cohort Builder computes, and every row a run of it
    adds to the table, has retained_users between 0 and total_users and
    retention_rate equal to retained_users over total_users, which is 0
    when total_users is 0. *)
Theorem calculate_retention_cohorts_rows (p : CohortBuilder.PeriodType) (w : World)
    (row : RetentionCohort) :
  row ∈ CohortBuilder.cohort_rows p (user_sessions (store w)) (clock w)
  ∨ (row ∈ retention_cohorts (CohortBuilder.calculate_retention_cohorts p w)
     ∧ row ∉ retention_cohorts (store w)) →
  (0 ≤ retained_users row ≤ total_users row)%nat
  ∧ (retention_rate row
     == inject_Z (Z.of_nat (retained_users row)) / inject_Z (Z.of_nat (total_users row)))%Q
  ∧ (total_users row = 0%nat → (retention_rate row == 0)%Q).
Proof.
  intros Hrow.
  assert (Hin : row ∈ CohortBuilder.cohort_rows p (user_sessions (store w)) (clock w)).
  { destruct Hrow as [Hin|[Hin Hnew]]; [exact Hin|]. simpl in Hin.
    apply upsert_all_elem in Hin as [Hin|Hin]; [exact Hin|contradiction]. }
  apply cohort_rows_elem in Hin as (c & n & ->). simpl.
  split; [split; [lia|apply length_filter]|].
  split; [apply rate_quotient|].
  intros ->. reflexivity.
Qed.

Lemma calculate_retention_cohorts_rows_witness :
  let row := {| cohort_date := 0; period_type := "weekly"; period_number := 1;
                total_users := 2; retained_users := 1; retention_rate := 1 # 2 |} in
  (0 ≤ retained_users row ≤ total_users row)%nat
  ∧ (retention_rate row
     == inject_Z (Z.of_nat (retained_users row)) / inject_Z (Z.of_nat (total_users row)))%Q
  ∧ (total_users row = 0%nat → (retention_rate row == 0)%Q).
Proof.
  apply (calculate_retention_cohorts_rows CohortBuilder.Weekly
           {| store := store_with_sessions; clock := 10 * 86400; utils_calls := [] |}).
  right. split.
  - vm_compute. apply list_elem_of_further, list_elem_of_here.
  - vm_compute. intros H. inversion H.
Defined.

(** ** Further behaviour, on concrete requests *)

Lemma track_wallet_connection_other_method_witness :
  ∃ response,
    call (track_wallet_connection (Summary := nat) never_rejects never_fails [AllowAny])
      (get_ alice ∅) (world_of empty_store)
    = (Ok response, world_of empty_store)
    ∧ (method (get_ alice ∅) ≠ "OPTIONS" →
       status_code response = HTTP_405_METHOD_NOT_ALLOWED)
    ∧ (method (get_ alice ∅) = "OPTIONS" → body response = OptionsMetadata).
Proof.
  destruct (track_wallet_connection_other_method (Summary := nat)
              never_rejects never_fails [AllowAny]
              (get_ alice ∅) (world_of empty_store))
    as (response & Hcall & Hdispatch & _); [discriminate|].
  exists response. split; [exact Hcall|]. apply Hdispatch; reflexivity.
Defined.

Lemma track_wallet_connection_malformed_payload_witness :
  call (track_wallet_connection (Summary := nat) never_rejects never_fails [AllowAny])
    (post alice (Raise ParseError)) (world_of empty_store)
  = (Ok (Response [("status", "error"); ("message", str ParseError)]
           HTTP_400_BAD_REQUEST), world_of empty_store).
Proof.
  apply (track_wallet_connection_malformed_payload (Summary := nat)
           never_rejects never_fails [AllowAny]
           (post alice (Raise ParseError)) (world_of empty_store) ParseError);
    reflexivity.
Defined.

Lemma track_wallet_connection_update_failure_keeps_record_witness :
  ∃ w',
    call (track_wallet_connection (Summary := nat) never_rejects metrics_always_fail [AllowAny])
      (post alice (Ok metamask_success)) (world_of store_with_metrics)
    = (Ok (Response [("status", "error"); ("message", str IntegrityError)]
             HTTP_400_BAD_REQUEST), w')
    ∧ wallet_connections (store w')
      = wallet_connections (store (world_of store_with_metrics))
        ++ [tracked_row (post alice (Ok metamask_success)) metamask_success
              (world_of store_with_metrics)]
    ∧ behavior_metrics (store w') = behavior_metrics (store (world_of store_with_metrics)).
Proof.
  apply (track_wallet_connection_update_failure_keeps_record (Summary := nat)
           never_rejects metrics_always_fail [AllowAny]
           (post alice (Ok metamask_success)) metamask_success
           (world_of store_with_metrics) IntegrityError);
    try reflexivity.
  exists {| update_count := 0 |}. reflexivity.
Defined.

Lemma track_wallet_connection_success_means_persisted_witness :
  method (post alice (Ok metamask_success)) = "POST"
  ∧ is_authenticated (user (post alice (Ok metamask_success))) = true
  ∧ ∃ d, data (post alice (Ok metamask_success)) = Ok d
         ∧ wallet_connections
             (store (with_store (world_of empty_store)
                       (insert_connection
                          (tracked_row (post alice (Ok metamask_success))
                             metamask_success (world_of empty_store))
                          empty_store)))
           = wallet_connections (store (world_of empty_store))
             ++ [tracked_row (post alice (Ok metamask_success)) d (world_of empty_store)].
Proof.
  apply (track_wallet_connection_success_means_persisted (Summary := nat)
           never_rejects never_fails [AllowAny]
           (post alice (Ok metamask_success)) (world_of empty_store)).
  reflexivity.
Defined.

Lemma track_wallet_connection_twice_witness :
  ∃ row1 row2,
    wallet_connections
      (store (call (track_wallet_connection (Summary := nat) never_rejects never_fails [AllowAny])
                (post alice (Ok metamask_success))
                (call (track_wallet_connection (Summary := nat) never_rejects never_fails [AllowAny])
                   (post alice (Ok metamask_success))
                   (world_of store_with_metrics)).2).2)
    = wallet_connections (store (world_of store_with_metrics)) ++ [row1; row2]
    ∧ wallet_provider row1 = wallet_provider row2
    ∧ wallet_address row1 = wallet_address row2
    ∧ connection_status row1 = connection_status row2
    ∧ metrics_updates
        (store (call (track_wallet_connection (Summary := nat) never_rejects never_fails [AllowAny])
                  (post alice (Ok metamask_success))
                  (call (track_wallet_connection (Summary := nat) never_rejects
                           never_fails [AllowAny])
                     (post alice (Ok metamask_success))
                     (world_of store_with_metrics)).2).2)
        (pk (user (post alice (Ok metamask_success))))
      = (if bool_decide (is_Some (behavior_metrics (store (world_of store_with_metrics))
                                    !! pk (user (post alice (Ok metamask_success)))))
         then S (S (metrics_updates (store (world_of store_with_metrics))
                      (pk (user (post alice (Ok metamask_success))))))
         else metrics_updates (store (world_of store_with_metrics))
                (pk (user (post alice (Ok metamask_success))))).
Proof.
  apply (track_wallet_connection_twice (Summary := nat) never_rejects never_fails [AllowAny]
           (post alice (Ok metamask_success)) metamask_success
           (world_of store_with_metrics));
    reflexivity.
Defined.

Lemma staff_endpoint_closed_witness :
  ∃ response,
    call (staff_endpoint (Summary := nat) count_sessions count_connections
            count_connections keep_cohorts [AllowAny] ApiWalletData)
      (post staff (Ok ∅)) (world_of store_with_attempts)
    = (Ok response, world_of store_with_attempts)
    ∧ match body response with
      | ErrorDetail _ | RedirectTo _ | OptionsMetadata => True
      | JsonObject _ | SummaryData _ | Rendered _ _ => False
      end
    ∧ (is_authenticated (user (post staff (Ok ∅))) = false →
       status_code response = HTTP_401_UNAUTHORIZED).
Proof.
  apply (staff_endpoint_closed (Summary := nat) count_sessions count_connections
           count_connections keep_cohorts [AllowAny] ApiWalletData
           (post staff (Ok ∅)) (world_of store_with_attempts)).
  intros [Hm _]. discriminate.
Defined.

Lemma retention_analysis_builder_failure_witness :
  call (retention_analysis (Summary := nat) builder_fails [AllowAny])
    (get_ staff ∅) (world_of empty_store)
  = (Raise IntegrityError,
     with_call (world_of empty_store)
       (Call_calculate_retention_cohorts (dict_get (GET (get_ staff ∅)) "period" "weekly"))).
Proof.
  apply (retention_analysis_builder_failure (Summary := nat) builder_fails [AllowAny]
           (get_ staff ∅) (world_of empty_store) IntegrityError);
    reflexivity.
Defined.

Lemma wallet_trends_window_out_of_range_witness :
  ∃ e,
    exc_class e = "OverflowError"
    ∧ api_status e = None
    ∧ call (wallet_trends (Summary := nat) count_connections [AllowAny])
        (get_ staff {[ "days" := "1000000000" ]}) (world_of empty_store)
      = (Raise e, with_call (world_of empty_store) Call_get_wallet_analytics).
Proof.
  apply (wallet_trends_window_out_of_range (Summary := nat) count_connections [AllowAny]
           (get_ staff {[ "days" := "1000000000" ]}) (world_of empty_store)
           "1000000000" 1000000000);
    [reflexivity | reflexivity | reflexivity | reflexivity | reflexivity
    | vm_compute; lia | left; lia].
Defined.

Lemma api_session_data_days_witness :
  call (api_session_data (Summary := nat) count_sessions [AllowAny])
    (get_ staff {[ "days" := "7" ]}) (world_of store_with_sessions)
  = (Ok {| status_code := HTTP_200_OK;
           body := SummaryData (count_sessions 7 (world_of store_with_sessions)) |},
     with_call (world_of store_with_sessions) (Call_get_session_analytics 7)).
Proof.
  apply (api_session_data_days (Summary := nat) count_sessions [AllowAny]
           (get_ staff {[ "days" := "7" ]}) (world_of store_with_sessions) 7);
    [reflexivity | reflexivity | reflexivity
    | right; exists "7"; split; [reflexivity|split; [reflexivity|vm_compute; lia]]].
Defined.

Lemma read_endpoints_leave_store_witness :
  store (call (staff_endpoint (Summary := nat) count_sessions count_connections
                 count_connections keep_cohorts [AllowAny] WalletTrends)
           (get_ staff {[ "days" := "abc" ]}) (world_of store_with_attempts)).2
  = store (world_of store_with_attempts)
  ∧ clock (call (staff_endpoint (Summary := nat) count_sessions count_connections
                   count_connections keep_cohorts [AllowAny] WalletTrends)
             (get_ staff {[ "days" := "abc" ]}) (world_of store_with_attempts)).2
    = clock (world_of store_with_attempts).
Proof.
  apply (read_endpoints_leave_store (Summary := nat) count_sessions count_connections
           count_connections keep_cohorts [AllowAny] WalletTrends
           (get_ staff {[ "days" := "abc" ]}) (world_of store_with_attempts)).
  discriminate.
Defined.

Lemma retention_analysis_renders_groups_witness :
  ∃ cohort_data,
    call (retention_analysis (Summary := nat) keep_cohorts [AllowAny])
      (get_ staff ∅) (world_of store_with_cohorts)
    = (Ok (render "analytics/retention.html" (RetentionContext "weekly" cohort_data)),
       with_store (with_call (world_of store_with_cohorts)
                     (Call_calculate_retention_cohorts "weekly")) store_with_cohorts)
    ∧ StronglySorted (λ a b, b < a) cohort_data.*1
    ∧ (∀ k, k ∈ cohort_data.*1
            ↔ ∃ c, c ∈ retention_cohorts store_with_cohorts
                   ∧ period_type c = "weekly" ∧ cohort_date c = k)
    ∧ (∀ k es, (k, es) ∈ cohort_data →
         es ≡ₚ cohort_entry
                 <$> filter (λ c, period_type c = "weekly" ∧ cohort_date c = k)
                       (retention_cohorts store_with_cohorts)
         ∧ StronglySorted (λ a b, (ce_period a ≤ ce_period b)%nat) es).
Proof.
  apply (retention_analysis_renders_groups (Summary := nat) keep_cohorts [AllowAny]
           (get_ staff ∅) (world_of store_with_cohorts) "weekly" store_with_cohorts);
    reflexivity.
Defined.

Lemma analytics_dashboard_recent_witness :
  ∃ session_data wallet_data user_segments recent_sessions recent_connections w',
    call (analytics_dashboard (Summary := nat) count_sessions count_connections
            count_connections [AllowAny])
      (get_ staff ∅) (world_of store_with_sessions)
    = (Ok (render "analytics/dashboard.html"
             (DashboardContext session_data wallet_data user_segments
                recent_sessions recent_connections)), w')
    ∧ utils_calls w'
      = utils_calls (world_of store_with_sessions)
        ++ [Call_get_session_analytics 30; Call_get_wallet_analytics;
            Call_get_user_segmentation]
    ∧ length recent_sessions
      = Nat.min 10 (length (user_sessions (store (world_of store_with_sessions))))
    ∧ StronglySorted login_ge recent_sessions
    ∧ (∃ older,
         recent_sessions ++ older ≡ₚ user_sessions (store (world_of store_with_sessions))
         ∧ ∀ x y, x ∈ recent_sessions → y ∈ older → login_at y ≤ login_at x)
    ∧ length recent_connections
      = Nat.min 10 (length (wallet_connections (store (world_of store_with_sessions))))
    ∧ StronglySorted attempted_ge recent_connections
    ∧ (∃ older,
         recent_connections ++ older
         ≡ₚ wallet_connections (store (world_of store_with_sessions))
         ∧ ∀ x y, x ∈ recent_connections → y ∈ older →
                  attempted_at y ≤ attempted_at x).
Proof.
  apply (analytics_dashboard_recent (Summary := nat) count_sessions count_connections
           count_connections [AllowAny] (get_ staff ∅) (world_of store_with_sessions));
    reflexivity.
Defined.

Lemma user_behavior_top_pages_witness :
  ∃ user_segments top_pages user_journeys w',
    call (user_behavior (Summary := nat) count_connections [AllowAny])
      (get_ staff ∅) (world_of store_with_views)
    = (Ok (render "analytics/user_behavior.html"
             (UserBehaviorContext user_segments top_pages user_journeys)), w')
    ∧ (length top_pages ≤ 20)%nat
    ∧ NoDup (pr_path <$> top_pages)
    ∧ StronglySorted views_ge top_pages
    ∧ (∀ r, r ∈ top_pages →
         (1 ≤ view_count r)%nat
         ∧ view_count r
           = length (filter (λ v, path v = pr_path r)
                       (page_views (store (world_of store_with_views))))
         ∧ unique_users r
           = size (list_to_set (C := gset nat)
                     (omap pv_user
                        (filter (λ v, path v = pr_path r)
                           (page_views (store (world_of store_with_views)))))))
    ∧ (∀ v r, v ∈ page_views (store (world_of store_with_views)) →
         path v ∉ pr_path <$> top_pages →
         r ∈ top_pages →
         (length (filter (λ v', path v' = path v)
                    (page_views (store (world_of store_with_views))))
          ≤ view_count r)%nat).
Proof.
  apply (user_behavior_top_pages (Summary := nat) count_connections [AllowAny]
           (get_ staff ∅) (world_of store_with_views));
    [reflexivity | reflexivity | reflexivity | vm_compute; split; discriminate].
Defined.

Lemma user_behavior_journeys_witness :
  ∃ user_segments top_pages user_journeys w',
    call (user_behavior (Summary := nat) count_connections [AllowAny])
      (get_ staff ∅) (world_of store_with_views)
    = (Ok (render "analytics/user_behavior.html"
             (UserBehaviorContext user_segments top_pages user_journeys)), w')
    ∧ utils_calls w'
      = utils_calls (world_of store_with_views) ++ [Call_get_user_segmentation]
    ∧ length user_journeys
      = Nat.min 100
          (length (filter (λ v, is_Some (pv_user v)
                                ∧ clock (world_of store_with_views) - 7 * 86400
                                  ≤ timestamp v)
                     (page_views (store (world_of store_with_views)))))
    ∧ StronglySorted journey_le user_journeys
    ∧ (∀ v, v ∈ user_journeys →
         v ∈ page_views (store (world_of store_with_views))
         ∧ is_Some (pv_user v)
         ∧ clock (world_of store_with_views) - 7 * 86400 ≤ timestamp v)
    ∧ ∃ left_out,
        user_journeys ++ left_out
        ≡ₚ filter (λ v, is_Some (pv_user v)
                        ∧ clock (world_of store_with_views) - 7 * 86400 ≤ timestamp v)
             (page_views (store (world_of store_with_views)))
        ∧ ∀ x y, x ∈ user_journeys → y ∈ left_out → journey_le x y.
Proof.
  apply (user_behavior_journeys (Summary := nat) count_connections [AllowAny]
           (get_ staff ∅) (world_of store_with_views));
    [reflexivity | reflexivity | reflexivity | vm_compute; split; discriminate].
Defined.

(** The behaviour page of the sample store: "/home" with three views of
    two known users comes first, and the two recent views of user 7 make
    up the journeys, in time order. *)
Example user_behavior_sample :
  (call (user_behavior (Summary := nat) count_connections [AllowAny])
     (get_ staff ∅) (world_of store_with_views)).1
  = Ok (render "analytics/user_behavior.html"
          (UserBehaviorContext 0%nat
             [{| pr_path := "/home"; view_count := 3; unique_users := 2 |};
              {| pr_path := "/mint"; view_count := 1; unique_users := 1 |}]
             [view_of (Some 7%nat) "/mint" 970000; view_of (Some 7%nat) "/home" 990000])).
Proof. vm_compute. reflexivity. Qed.

Example retention_sample :
  (call (retention_analysis (Summary := nat) keep_cohorts [AllowAny])
     (get_ staff ∅) (world_of store_with_cohorts)).1
  = Ok (render "analytics/retention.html"
          (RetentionContext "weekly"
             [(7, [cohort_entry (cohort_of 7 "weekly" 0 1 1)]);
              (0, [cohort_entry (cohort_of 0 "weekly" 0 2 2);
                   cohort_entry (cohort_of 0 "weekly" 1 2 1)])])).
Proof. vm_compute. reflexivity. Qed.

(** ** The definitions on small inputs *)

Example int_accepts :
  parse_int "30" = Some 30 ∧ parse_int " -1_000 " = Some (-1000) ∧ parse_int "+007" = Some 7.
Proof. repeat split. Qed.

Example int_rejects :
  parse_int "abc" = None ∧ parse_int "" = None ∧ parse_int "1__0" = None
  ∧ parse_int "_1" = None ∧ parse_int "1_" = None ∧ parse_int "3 0" = None
  ∧ parse_int "7.5" = None.
Proof. repeat split. Qed.

(** The separator bytes 28 to 31 are not whitespace for [int], although
    [str.strip] drops them. *)
Example int_rejects_separators :
  parse_int (String (ascii_of_nat 28) "5") = None
  ∧ parse_int (String "5" (String (ascii_of_nat 31) EmptyString)) = None
  ∧ parse_int (String (ascii_of_nat 9) "5") = Some 5.
Proof. repeat split. Qed.

Example rejected_token_answered_by_framework :
  call (track_wallet_connection (Summary := nat) never_rejects never_fails [AllowAny])
    (post_bad_token (Ok metamask_success)) (world_of empty_store)
  = (Ok (api_error HTTP_401_UNAUTHORIZED "Given token not valid for any token type"),
     world_of empty_store).
Proof. reflexivity. Qed.

Example anonymous_refused_by_default_permissions :
  call (track_wallet_connection (Summary := nat) never_rejects never_fails
          [IsAuthenticated])
    (post anonymous (Ok metamask_success)) (world_of empty_store)
  = (Ok (api_error HTTP_401_UNAUTHORIZED "Authentication credentials were not provided."),
     world_of empty_store).
Proof. reflexivity. Qed.

Example daily_connections_two_days :
  daily_connections_query 913600 (wallet_connections store_with_attempts)
  = [{| day := 10; total := 1; successful := 0; failed := 1 |};
     {| day := 11; total := 1; successful := 1; failed := 0 |}].
Proof. reflexivity. Qed.

Example tracked_attempt_updates_metrics :
  let w' := (call (track_wallet_connection (Summary := nat) never_rejects never_fails [AllowAny])
               (post alice (Ok metamask_success)) (world_of store_with_metrics)).2 in
  length (wallet_connections (store w')) = 1%nat
  ∧ metrics_updates (store w') (pk alice) = 1%nat.
Proof. split; reflexivity. Qed.

Example malformed_payload_400 :
  call (track_wallet_connection (Summary := nat) never_rejects never_fails [AllowAny])
    (post alice (Raise ParseError)) (world_of empty_store)
  = (Ok (Response [("status", "error"); ("message", "JSON parse error")]
           HTTP_400_BAD_REQUEST), world_of empty_store).
Proof. reflexivity. Qed.

Example tracking_rejects_get :
  status_code
    (match (call (track_wallet_connection (Summary := nat) never_rejects never_fails [AllowAny])
              (get_ alice ∅) (world_of empty_store)).1 with
     | Ok response => response
     | Raise _ => Response [] 0
     end) = HTTP_405_METHOD_NOT_ALLOWED.
Proof. reflexivity. Qed.

(** The scenario of the specification: ten users first seen in one week,
    four of them back the week after. *)
Example cohort_of_ten_four_retained :
  let sessions :=
    map (λ u, session_on u 0) (seq 1 10) ++ map (λ u, session_on u 7) (seq 1 4) in
  let row := CohortBuilder.cohort_row CohortBuilder.Weekly sessions 0 1 in
  total_users row = 10%nat ∧ retained_users row = 4%nat
  ∧ (retention_rate row == 4 # 10)%Q.
Proof. vm_compute. repeat split. Qed.

Example empty_cohort_rate_zero :
  let rows := CohortBuilder.cohort_rows CohortBuilder.Weekly
                (user_sessions store_with_sessions) (15 * 86400) in
  last rows
  = Some {| cohort_date := 14; period_type := "weekly"; period_number := 0;
            total_users := 0; retained_users := 0; retention_rate := 0 |}.
Proof. vm_compute. reflexivity. Qed.
